(** * VectHare: the YAKE keyword-extraction server (yake_server.py)

    A shallow embedding of the two Flask handlers of [yake_server.py],
    [health] and [extract_keywords], together with the fragment of
    Python's dynamic semantics they rely on: truthiness, the [in]
    operator, subscripting, [dict.get], list slicing and exceptions.

    The YAKE library is an external collaborator.  It is a parameter of
    the development ([yake_module]), and every call into it is recorded
    in a trace so that statements about how often and with what
    arguments the library is entered can be made.

    The check script [test_yake_server.py] is embedded as well: its four
    checks and [main], over the outcome of [urlopen] and with a log of
    the requests sent.  What the script prints is not modelled; the
    expressions it evaluates while printing are, since an exception in
    them decides a check. *)

From Stdlib Require Import ZArith Floats.SpecFloat.
From stdpp Require Import gmap strings list fin_maps.

Set Warnings "-register-all".
Local Open Scope Z_scope.

(** ** Python values *)

(** The objects [json.loads] builds, which are also the objects
    [jsonify] serialises.  A Python [float] is an IEEE binary64 value,
    kept here as the [spec_float] it denotes; the handlers only move
    floats around. *)
Inductive pyval : Type :=
  | PNone
  | PBool (b : bool)
  | PInt (z : Z)
  | PFloat (f : spec_float)
  | PStr (s : string)
  | PList (l : list pyval)
  | PDict (m : gmap string pyval).

(** An exception is observed by the handler through [str(e)] only. *)
Record pyexn : Type := Exception { exn_str : string }.

(** Outcome of evaluating a Python expression. *)
Inductive pyres (A : Type) : Type :=
  | Ok (a : A)
  | Raise (e : pyexn).
Arguments Ok {A} a.
Arguments Raise {A} e.

Definition TypeError (msg : string) : pyexn := Exception msg.
Definition KeyError (key : string) : pyexn := Exception ("'" +:+ key +:+ "'").
Definition AttributeError (msg : string) : pyexn := Exception msg.

(** [type(v).__name__] *)
Definition type_name (v : pyval) : string :=
  match v with
  | PNone => "NoneType"
  | PBool _ => "bool"
  | PInt _ => "int"
  | PFloat _ => "float"
  | PStr _ => "str"
  | PList _ => "list"
  | PDict _ => "dict"
  end.

(** [bool(v)]: [None], [False], zero, and empty containers are falsy. *)
Definition truthy (v : pyval) : bool :=
  match v with
  | PNone => false
  | PBool b => b
  | PInt z => negb (z =? 0)
  | PFloat f => match f with S754_zero _ => false | _ => true end
  | PStr s => negb (bool_decide (s = ""))
  | PList l => match l with [] => false | _ :: _ => true end
  | PDict m => negb (bool_decide (m = ∅))
  end.

(** [isinstance(v, str)] *)
Definition isinstance_str (v : pyval) : bool :=
  match v with PStr _ => true | _ => false end.

(** [needle in hay] on two strings: substring test. *)
Fixpoint str_contains (needle hay : string) : bool :=
  String.prefix needle hay ||
  match hay with
  | EmptyString => false
  | String _ rest => str_contains needle rest
  end.

(** [x == key] for a string [key]: only an equal [str] compares equal. *)
Definition eq_str (key : string) (x : pyval) : bool :=
  match x with PStr s => bool_decide (s = key) | _ => false end.

(** [key in v] for a string [key]: key membership on a dict, element
    membership on a list, substring test on a string; any other
    operand is not iterable. *)
Definition py_in (key : string) (v : pyval) : pyres bool :=
  match v with
  | PDict m => Ok (bool_decide (is_Some (m !! key)))
  | PList l => Ok (existsb (eq_str key) l)
  | PStr s => Ok (str_contains key s)
  | _ => Raise (TypeError
           ("argument of type '" +:+ type_name v +:+ "' is not iterable"))
  end.

(** [v[key]] for a string [key]. *)
Definition py_getitem (v : pyval) (key : string) : pyres pyval :=
  match v with
  | PDict m =>
      match m !! key with
      | Some x => Ok x
      | None => Raise (KeyError key)
      end
  | PList _ =>
      Raise (TypeError "list indices must be integers or slices, not str")
  | PStr _ =>
      Raise (TypeError "string indices must be integers, not 'str'")
  | _ => Raise (TypeError
           ("'" +:+ type_name v +:+ "' object is not subscriptable"))
  end.

(** [v.get(key, dflt)]: only a dict has the method. *)
Definition py_get (v : pyval) (key : string) (dflt : pyval) : pyres pyval :=
  match v with
  | PDict m => Ok (default dflt (m !! key))
  | _ => Raise (AttributeError
           ("'" +:+ type_name v +:+ "' object has no attribute 'get'"))
  end.

(** [l[:k]] for an integer [k]: the first [k] elements when [k >= 0],
    all but the last [-k] elements when [k < 0]. *)
Definition slice_to_int {A : Type} (l : list A) (k : Z) : list A :=
  if 0 <=? k then take (Z.to_nat k) l
  else take (length l - Z.to_nat (- k))%nat l.

(** [l[:stop]]: [stop] has to be [None] or an integer ([bool] is a
    subclass of [int]). *)
Definition py_slice_to {A : Type} (l : list A) (stop : pyval)
  : pyres (list A) :=
  match stop with
  | PNone => Ok l
  | PInt k => Ok (slice_to_int l k)
  | PBool b => Ok (slice_to_int l (if b then 1 else 0))
  | _ => Raise (TypeError
           "slice indices must be integers or None or have an __index__ method")
  end.

(** [float(x)] on a float is that float. *)
Definition py_float (x : spec_float) : spec_float := x.

(** ** The YAKE library *)

(** Keyword arguments of [yake.KeywordExtractor(...)].  The handler
    passes request values through unchecked, so each is a [pyval]. *)
Record ke_kwargs : Type := KeKwargs {
  kw_lan : pyval;
  kw_n : pyval;
  kw_dedupLim : pyval;
  kw_dedupFunc : pyval;
  kw_top : pyval;
  kw_features : pyval
}.

(** What the handler uses of the [yake] module: the constructor and the
    [extract_keywords] method, which returns (keyword, score) tuples.
    Either may raise. *)
Record yake_module : Type := YakeModule {
  Extractor : Type;
  KeywordExtractor : ke_kwargs → pyres Extractor;
  ke_extract_keywords : Extractor → pyval → pyres (list (string * spec_float))
}.

(** Calls into the library, in program order. *)
Inductive event : Type :=
  | EvKeywordExtractor (kw : ke_kwargs)
  | EvExtractKeywords (text : pyval).

Definition is_EvKeywordExtractor (ev : event) : bool :=
  match ev with EvKeywordExtractor _ => true | _ => false end.

Definition is_EvExtractKeywords (ev : event) : bool :=
  match ev with EvExtractKeywords _ => true | _ => false end.

(** ** Computations: exceptions over a trace of library calls *)

Definition M (A : Type) : Type := list event → pyres A * list event.

Definition ret {A : Type} (a : A) : M A := λ tr, (Ok a, tr).

Definition bind {A B : Type} (m : M A) (k : A → M B) : M B :=
  λ tr, match m tr with
        | (Ok a, tr') => k a tr'
        | (Raise e, tr') => (Raise e, tr')
        end.

(** A pure Python expression, which may raise. *)
Definition lift {A : Type} (r : pyres A) : M A := λ tr, (r, tr).

(** [try: body  except Exception as e: handler(e)] *)
Definition try_except {A : Type} (body : M A) (handler : pyexn → M A) : M A :=
  λ tr, match body tr with
        | (Ok a, tr') => (Ok a, tr')
        | (Raise e, tr') => handler e tr'
        end.

#[global] Instance M_ret : MRet M := @ret.
#[global] Instance M_bind : MBind M := λ A B k m, bind m k.

(** ** The Flask application *)

(** What a handler reads of Flask's [request]: the outcome of the
    [request.json] accessor, which yields the parsed body or raises. *)
Record flask_request : Type := FlaskRequest { request_json : pyres pyval }.

(** A handler's return value: the serialised payload and the status. *)
Record response : Type := Response { body : pyval; status : Z }.

(** [jsonify(payload)] carries [payload] as the response body. *)
Definition jsonify (payload : pyval) : pyval := payload.

(** Default YAKE parameters *)
Definition DEFAULT_LANGUAGE : pyval := PStr "en".
Definition DEFAULT_MAX_KEYWORDS : pyval := PInt 10.
(* 0.9 as a binary64: 0x3FECCCCCCCCCCCCD *)
Definition DEFAULT_DEDUPLICATION_THRESHOLD : pyval :=
  PFloat (S754_finite false 8106479329266893 (-53)).
Definition DEFAULT_DEDUPLICATION_ALGO : pyval := PStr "seqm".
Definition DEFAULT_WINDOW_SIZE : pyval := PInt 1.
Definition DEFAULT_TOP_N : pyval := PInt 10.

(** [GET /health] *)
Definition health : M response :=
  mret (Response
          (jsonify (PDict {[ "status" := PStr "healthy";
                             "service" := PStr "YAKE Keyword Extraction Server";
                             "version" := PStr "1.0.0" ]}))
          200).

Section Handler.

Context (yake : yake_module).

Definition call_KeywordExtractor (kw : ke_kwargs) : M (Extractor yake) :=
  λ tr, (KeywordExtractor yake kw, tr ++ [EvKeywordExtractor kw]).

Definition call_extract_keywords (x : Extractor yake) (text : pyval)
  : M (list (string * spec_float)) :=
  λ tr, (ke_extract_keywords yake x text, tr ++ [EvExtractKeywords text]).

(** The [{'text': kw, 'score': float(score)}] of the comprehension. *)
Definition keyword_entry (p : string * spec_float) : pyval :=
  let '(kw, score) := p in
  PDict {[ "text" := PStr kw; "score" := PFloat (py_float score) ]}.

(** The body of the [try] block of [extract_keywords]. *)
Definition extract_keywords_try (request : flask_request) : M response :=
  data ← lift (request_json request);
  (* if not data or 'text' not in data *)
  missing ← (if negb (truthy data) then mret true
             else has_text ← lift (py_in "text" data); mret (negb has_text));
  if (missing : bool) then
    mret (Response
            (jsonify (PDict {[ "error" := PStr "Missing required field: text" ]}))
            400)
  else
  text ← lift (py_getitem data "text");
  if negb (truthy text) || negb (isinstance_str text) then
    mret (Response
            (jsonify (PDict {[ "error" :=
                PStr "Invalid text field: must be non-empty string" ]}))
            400)
  else
  (* Extract parameters with defaults *)
  language ← lift (py_get data "language" DEFAULT_LANGUAGE);
  max_keywords ← lift (py_get data "maxKeywords" DEFAULT_MAX_KEYWORDS);
  dedup_threshold ← lift (py_get data "deduplicationThreshold"
                                 DEFAULT_DEDUPLICATION_THRESHOLD);
  dedup_algo ← lift (py_get data "deduplicationAlgo" DEFAULT_DEDUPLICATION_ALGO);
  window_size ← lift (py_get data "windowSize" DEFAULT_WINDOW_SIZE);
  top_n ← lift (py_get data "topN" DEFAULT_TOP_N);
  (* Initialize YAKE keyword extractor *)
  kw_extractor ← call_KeywordExtractor
                   {| kw_lan := language;
                      kw_n := window_size;
                      kw_dedupLim := dedup_threshold;
                      kw_dedupFunc := dedup_algo;
                      kw_top := top_n;
                      kw_features := PNone |};
  (* Extract keywords *)
  raw_keywords ← call_extract_keywords kw_extractor text;
  (* Format results *)
  sliced ← lift (py_slice_to raw_keywords max_keywords);
  let keywords := keyword_entry <$> sliced in
  mret (Response
          (jsonify (PDict {[ "keywords" := PList keywords;
                             "count" := PInt (Z.of_nat (length keywords)) ]}))
          200).

(** [POST /extract] *)
Definition extract_keywords (request : flask_request) : M response :=
  try_except (extract_keywords_try request)
    (λ e, mret (Response
                  (jsonify (PDict {[ "error" := PStr (exn_str e) ]}))
                  500)).

End Handler.

(** ** Routing *)

(** The two routes registered on [app]. *)
Inductive http_request : Type :=
  | GET_health
  | POST_extract (request : flask_request).

Definition dispatch (yake : yake_module) (r : http_request) : M response :=
  match r with
  | GET_health => health
  | POST_extract request => extract_keywords yake request
  end.

(** The application serving a sequence of requests, one after the other. *)
Fixpoint serve (yake : yake_module) (rs : list http_request)
  : M (list response) :=
  match rs with
  | [] => mret []
  | r :: rest =>
      resp ← dispatch yake r;
      resps ← serve yake rest;
      mret (resp :: resps)
  end.

(** A POST whose body parsed to [v]. *)
Definition post_json (v : pyval) : flask_request := FlaskRequest (Ok v).

(** ** Stand-ins for the YAKE library, to run the handler on examples *)

Definition sample_keywords : list (string * spec_float) :=
  [ ("alpha", S754_finite false 7205759403792794 (-57));   (* 0.05 *)
    ("beta",  S754_finite false 8646911284551352 (-56));   (* 0.12 *)
    ("gamma", S754_finite false 5584463537939415 (-54)) ]. (* 0.31 *)

(** Always answers with the three [sample_keywords]. *)
Definition stub_yake : yake_module :=
  {| Extractor := ke_kwargs;
     KeywordExtractor := λ kw, Ok kw;
     ke_extract_keywords := λ _ _, Ok sample_keywords |}.

(** Constructs an extractor, then fails on extraction. *)
Definition failing_yake : yake_module :=
  {| Extractor := ke_kwargs;
     KeywordExtractor := λ kw, Ok kw;
     ke_extract_keywords := λ _ _, Raise (Exception "extraction failed") |}.

(** Fails already in the constructor. *)
Definition unconstructible_yake : yake_module :=
  {| Extractor := unit;
     KeywordExtractor := λ _, Raise (Exception "unsupported language");
     ke_extract_keywords := λ _ _, Ok [] |}.

(** ** Vocabulary of the statements *)

(** The [{"error": msg}] payload with its status. *)
Definition error_response (code : Z) (msg : string) : response :=
  Response (PDict {[ "error" := PStr msg ]}) code.

(** The [{"keywords": [...], "count": n}] payload built from the
    (keyword, score) tuples [kws], with status 200. *)
Definition success_response (kws : list (string * spec_float)) : response :=
  Response
    (PDict {[ "keywords" := PList (keyword_entry <$> kws);
              "count" := PInt (Z.of_nat (length kws)) ]})
    200.

(** The fixed payload of [GET /health]. *)
Definition healthy_response : response :=
  Response
    (PDict {[ "status" := PStr "healthy";
              "service" := PStr "YAKE Keyword Extraction Server";
              "version" := PStr "1.0.0" ]})
    200.

(** The parameters the handler hands to [yake.KeywordExtractor] for the
    payload [m], and the slice bound it applies afterwards. *)
Definition resolved_kwargs (m : gmap string pyval) : ke_kwargs :=
  {| kw_lan := default DEFAULT_LANGUAGE (m !! "language");
     kw_n := default DEFAULT_WINDOW_SIZE (m !! "windowSize");
     kw_dedupLim :=
       default DEFAULT_DEDUPLICATION_THRESHOLD (m !! "deduplicationThreshold");
     kw_dedupFunc := default DEFAULT_DEDUPLICATION_ALGO (m !! "deduplicationAlgo");
     kw_top := default DEFAULT_TOP_N (m !! "topN");
     kw_features := PNone |}.

Definition resolved_max_keywords (m : gmap string pyval) : pyval :=
  default DEFAULT_MAX_KEYWORDS (m !! "maxKeywords").

(** The extraction capability as one operation: construct an extractor
    with [kw], then run it on [text]. *)
Definition capability (yake : yake_module) (kw : ke_kwargs) (text : pyval)
  : pyres (list (string * spec_float)) :=
  match KeywordExtractor yake kw with
  | Ok x => ke_extract_keywords yake x text
  | Raise e => Raise e
  end.

(** The library calls one run of the capability makes. *)
Definition capability_events (yake : yake_module) (kw : ke_kwargs)
  (text : pyval) : list event :=
  EvKeywordExtractor kw ::
  match KeywordExtractor yake kw with
  | Ok _ => [EvExtractKeywords text]
  | Raise _ => []
  end.

(** The value under [key] in the payload of a response. *)
Definition lookup_body (r : response) (key : string) : option pyval :=
  match body r with
  | PDict d => d !! key
  | _ => None
  end.

(** How often a trace enters the constructor and the extraction method. *)
Definition constructor_calls (tr : list event) : nat :=
  length (List.filter is_EvKeywordExtractor tr).

Definition extraction_calls (tr : list event) : nat :=
  length (List.filter is_EvExtractKeywords tr).

(** The optional request fields with their documented defaults. *)
Definition optional_defaults : list (string * pyval) :=
  [ ("language", DEFAULT_LANGUAGE);
    ("maxKeywords", DEFAULT_MAX_KEYWORDS);
    ("deduplicationThreshold", DEFAULT_DEDUPLICATION_THRESHOLD);
    ("deduplicationAlgo", DEFAULT_DEDUPLICATION_ALGO);
    ("windowSize", DEFAULT_WINDOW_SIZE);
    ("topN", DEFAULT_TOP_N) ].

(** A payload holding [text] and every optional field at its default. *)
Definition all_defaults_payload (text : pyval) : gmap string pyval :=
  {[ "text" := text;
     "language" := PStr "en";
     "maxKeywords" := PInt 10;
     "deduplicationThreshold" := PFloat (S754_finite false 8106479329266893 (-53));
     "deduplicationAlgo" := PStr "seqm";
     "windowSize" := PInt 1;
     "topN" := PInt 10 ]}.

(** The keys of the payload the handler reads. *)
Definition request_fields : list string :=
  [ "text"; "language"; "maxKeywords"; "deduplicationThreshold";
    "deduplicationAlgo"; "windowSize"; "topN" ].

(** The number of [POST /extract] requests among [rs]. *)
Definition post_count (rs : list http_request) : nat :=
  length (List.filter
            (λ r, match r with POST_extract _ => true | GET_health => false end)
            rs).

(** ** More of Python, for the check script *)

#[global] Instance pyres_ret : MRet pyres := @Ok.
#[global] Instance pyres_bind : MBind pyres :=
  λ A B k r, match r with Ok a => k a | Raise e => Raise e end.

Definition ValueError (msg : string) : pyexn := Exception msg.
Definition OverflowError (msg : string) : pyexn := Exception msg.

(** [len(v) > 0]: defined on strings, lists and dicts. *)
Definition py_len_positive (v : pyval) : pyres bool :=
  match v with
  | PStr _ | PList _ | PDict _ => Ok (truthy v)
  | _ => Raise (TypeError
           ("object of type '" +:+ type_name v +:+ "' has no len()"))
  end.

(** The items of a string, each a [str] of its own.  They are cut
    byte-wise here; the script only subscripts them with a string key,
    which raises for every [str]. *)
Definition str_items (s : string) : list pyval :=
  (λ c, PStr (String c EmptyString)) <$> String.list_ascii_of_string s.

(** The items a [for] loop over [v[:k]] visits, for [k >= 0]. *)
Definition py_slice_items (v : pyval) (k : nat) : pyres (list pyval) :=
  match v with
  | PList l => Ok (take k l)
  | PStr s => Ok (take k (str_items s))
  | PDict _ => Raise (TypeError "unhashable type: 'slice'")
  | _ => Raise (TypeError
           ("'" +:+ type_name v +:+ "' object is not subscriptable"))
  end.

(** Whether [f"{v:.4f}"] formats: floats, and integers that convert to
    a float, do; an integer that rounds beyond the largest binary64
    overflows; other values reject the format code. *)
Definition py_format_4f (v : pyval) : pyres unit :=
  match v with
  | PFloat _ | PBool _ => Ok ()
  | PInt z =>
      if Z.abs z <? 2 ^ 1024 - 2 ^ 970 then Ok ()
      else Raise (OverflowError "int too large to convert to float")
  | PStr _ =>
      Raise (ValueError "Unknown format code 'f' for object of type 'str'")
  | _ => Raise (TypeError
           ("unsupported format string passed to " +:+ type_name v
            +:+ ".__format__"))
  end.

(** Whether [', '.join(items)] succeeds: every item has to be a [str]. *)
Definition py_join (items : list pyval) : pyres unit :=
  if forallb isinstance_str items then Ok ()
  else Raise (TypeError "sequence item: expected str instance").

(** A loop body run over a list; the first exception leaves the loop. *)
Fixpoint py_for {A : Type} (f : A → pyres unit) (l : list A) : pyres unit :=
  match l with
  | [] => Ok ()
  | x :: rest => _ ← f x; py_for f rest
  end.

(** A list comprehension whose element expression may raise. *)
Fixpoint py_comprehension {A B : Type} (f : A → pyres B) (l : list A)
  : pyres (list B) :=
  match l with
  | [] => Ok []
  | x :: rest => y ← f x; ys ← py_comprehension f rest; Ok (y :: ys)
  end.

(** [try: body  except Exception: return False] *)
Definition except_False (r : pyres bool) : bool :=
  match r with Ok b => b | Raise _ => false end.

(** ** The check script (test_yake_server.py) *)

(** A [request.Request(url, data=..., headers=..., method=...)] handed
    to [request.urlopen] with a timeout.  [call_json] is the payload of
    which [json.dumps(payload).encode('utf-8')] is the body. *)
Record http_call : Type := HttpCall {
  call_url : string;
  call_method : string;
  call_json : option pyval;
  call_headers : list (string * string);
  call_timeout : Z
}.

(** What [request.urlopen] does.  It returns a reply, whose body the
    script may pass to [json.loads] ([payload] is the outcome of
    [json.loads(response.read())]); or it raises [error.HTTPError], a
    subclass of [error.URLError], with a status code and a body read the
    same way; or a [URLError] that is not an [HTTPError]; or another
    exception. *)
Inductive urlopen_outcome : Type :=
  | UrlOpened (payload : pyres pyval)
  | HTTPError (code : Z) (payload : pyres pyval)
  | URLError
  | OtherException.

(** Script computations: they log the requests they send. *)
Definition Client (A : Type) : Type := list http_call → A * list http_call.

#[global] Instance Client_ret : MRet Client := λ A a sent, (a, sent).
#[global] Instance Client_bind : MBind Client :=
  λ A B k c sent, let '(a, sent') := c sent in k a sent'.

Definition DEFAULT_URL : string := "http://localhost:5555".

Definition json_headers : list (string * string) :=
  [ ("Content-Type", "application/json") ].

Definition test_text : string := "
    Artificial intelligence has revolutionized natural language processing.
    Machine learning algorithms can now understand context, sentiment, and semantic meaning.
    Deep learning models like transformers have enabled breakthrough capabilities.
    ".

Definition test_cases : list (string * string) :=
  [ ("en", "Machine learning revolutionizes artificial intelligence systems");
    ("es", "La inteligencia artificial transforma el procesamiento del lenguaje");
    ("fr", "L'intelligence artificielle révolutionne le traitement du langage") ].

Section Script.

(** The network the script talks to. *)
Context (urlopen : http_call → urlopen_outcome).

Definition call_urlopen (c : http_call) : Client urlopen_outcome :=
  λ sent, (urlopen c, sent ++ [c]).

(** Test health endpoint *)
Definition test_health (base_url : string) : Client bool :=
  out ← call_urlopen (HttpCall (base_url +:+ "/health") "GET" None [] 5);
  mret match out with
       | UrlOpened payload =>
           except_False
             (data ← payload;
              status ← py_get data "status" PNone;
              mret (eq_str "healthy" status))
       | HTTPError _ _ | URLError => false
       | OtherException => false
       end.

(** The line printed for one keyword: [kw['text']] and
    [kw['score']:.4f]. *)
Definition keyword_line (kw : pyval) : pyres unit :=
  _ ← py_getitem kw "text";
  score ← py_getitem kw "score";
  py_format_4f score.

(** Test keyword extraction *)
Definition test_extraction (base_url : string) : Client bool :=
  let payload := PDict {[ "text" := PStr test_text;
                          "language" := PStr "en";
                          "maxKeywords" := PInt 5 ]} in
  out ← call_urlopen
          (HttpCall (base_url +:+ "/extract") "POST" (Some payload)
             json_headers 10);
  mret match out with
       | UrlOpened payload =>
           except_False
             (data ← payload;
              keywords ← py_get data "keywords" (PList []);
              found ← py_len_positive keywords;
              if (found : bool) then
                items ← py_slice_items keywords 5;
                _ ← py_for keyword_line items;
                mret true
              else mret false)
       | HTTPError _ _ | URLError => false
       | OtherException => false
       end.

(** Test error handling *)
Definition test_error_handling (base_url : string) : Client bool :=
  (* Test with missing text field *)
  let payload := PDict {[ "language" := PStr "en" ]} in
  out ← call_urlopen
          (HttpCall (base_url +:+ "/extract") "POST" (Some payload)
             json_headers 5);
  mret match out with
       | UrlOpened _ => false
       | HTTPError code payload =>
           except_False
             (if code =? 400 then
                error_data ← payload;
                has_error ← py_in "error" error_data;
                if (has_error : bool) then
                  _ ← py_getitem error_data "error";
                  mret true
                else mret false
              else mret false)
       | URLError | OtherException => false
       end.

(** One turn of the loop of [test_multilanguage]: whether the case
    counts as passed. *)
Definition multilanguage_case (base_url : string) (case : string * string)
  : Client bool :=
  let '(lang, text) := case in
  let payload := PDict {[ "text" := PStr text;
                          "language" := PStr lang;
                          "maxKeywords" := PInt 3 ]} in
  out ← call_urlopen
          (HttpCall (base_url +:+ "/extract") "POST" (Some payload)
             json_headers 10);
  mret match out with
       | UrlOpened payload =>
           except_False
             (data ← payload;
              keywords ← py_get data "keywords" (PList []);
              found ← py_len_positive keywords;
              if (found : bool) then
                items ← py_slice_items keywords 3;
                texts ← py_comprehension (λ kw, py_getitem kw "text") items;
                _ ← py_join texts;
                mret true
              else mret false)
       | _ => false
       end.

Fixpoint multilanguage_loop (base_url : string) (cases : list (string * string))
  (passed : nat) : Client nat :=
  match cases with
  | [] => mret passed
  | case :: rest =>
      ok ← multilanguage_case base_url case;
      multilanguage_loop base_url rest (if (ok : bool) then S passed else passed)
  end.

(** Test multi-language support *)
Definition test_multilanguage (base_url : string) : Client bool :=
  passed ← multilanguage_loop base_url test_cases 0;
  mret (passed =? length test_cases)%nat.

(** [main()], for [--url url]: the status the script exits with. *)
Definition main (url : string) : Client Z :=
  h ← test_health url;
  let results := [ ("Health Check", (h : bool)) ] in
  if h then
    (* Only continue if health check passed *)
    e ← test_extraction url;
    let results := results ++ [ ("Keyword Extraction", e) ] in
    er ← test_error_handling url;
    let results := results ++ [ ("Error Handling", er) ] in
    ml ← test_multilanguage url;
    let results := results ++ [ ("Multi-Language", ml) ] in
    let passed := length (List.filter snd results) in
    let total := length results in
    mret (if (passed =? total)%nat then 0 else 1)
  else mret 1.

End Script.

(** ** The script run against the application *)

(** How urllib hands a reply to the script: a 2xx status is returned,
    any other status is raised as [HTTPError].  The body is the JSON
    that [jsonify] wrote, which [json.loads] reads back. *)
Definition urllib_reply (r : response) : urlopen_outcome :=
  if (200 <=? status r) && (status r <? 300)
  then UrlOpened (Ok (body r))
  else HTTPError (status r) (Ok (body r)).

(** The application listening at [base_url], as [urlopen] sees it: the
    two routes of [app].  A request without a JSON body makes
    [request.json] raise inside the handler.  Another method on a route
    and another path are answered by Flask itself, with a 405 or a 404
    page that is not JSON. *)
Definition flask_app (yake : yake_module) (base_url : string) (c : http_call)
  : urlopen_outcome :=
  let not_json := Raise (ValueError "Expecting value") in
  let reply (run : pyres response * list event) :=
    match run.1 with
    | Ok r => urllib_reply r
    | Raise _ => HTTPError 500 not_json
    end in
  if bool_decide (call_url c = base_url +:+ "/health") then
    if bool_decide (call_method c = "GET") then reply (health [])
    else HTTPError 405 not_json
  else if bool_decide (call_url c = base_url +:+ "/extract") then
    if bool_decide (call_method c = "POST") then
      reply (extract_keywords yake
               (FlaskRequest
                  match call_json c with
                  | Some v => Ok v
                  | None => Raise (Exception "415 Unsupported Media Type")
                  end) [])
    else HTTPError 405 not_json
  else HTTPError 404 not_json.

(** ** Vocabulary of the statements about the script *)

(** A keyword entry [test_extraction] can print: an object with a
    [text] and with a [score] that the format [.4f] accepts. *)
Definition printable_keyword (kw : pyval) : Prop :=
  ∃ (e : gmap string pyval) (score : pyval),
    kw = PDict e ∧ is_Some (e !! "text")
    ∧ e !! "score" = Some score ∧ py_format_4f score = Ok ().

(** A keyword entry [test_multilanguage] can join: an object whose
    [text] is a string. *)
Definition named_keyword (kw : pyval) : Prop :=
  ∃ (e : gmap string pyval) (t : string),
    kw = PDict e ∧ e !! "text" = Some (PStr t).

(** The request each check sends. *)
Definition health_call (base_url : string) : http_call :=
  HttpCall (base_url +:+ "/health") "GET" None [] 5.

Definition extraction_call (base_url : string) : http_call :=
  HttpCall (base_url +:+ "/extract") "POST"
    (Some (PDict {[ "text" := PStr test_text;
                    "language" := PStr "en";
                    "maxKeywords" := PInt 5 ]}))
    json_headers 10.

Definition error_handling_call (base_url : string) : http_call :=
  HttpCall (base_url +:+ "/extract") "POST"
    (Some (PDict {[ "language" := PStr "en" ]})) json_headers 5.

Definition multilanguage_call (base_url : string) (case : string * string)
  : http_call :=
  HttpCall (base_url +:+ "/extract") "POST"
    (Some (PDict {[ "text" := PStr case.2;
                    "language" := PStr case.1;
                    "maxKeywords" := PInt 3 ]}))
    json_headers 10.

(** The constructor arguments of a request that sets [language] only,
    and what it means that the library finds a keyword in [text]. *)
Definition kwargs_for_language (lang : string) : ke_kwargs :=
  KeKwargs (PStr lang) DEFAULT_WINDOW_SIZE DEFAULT_DEDUPLICATION_THRESHOLD
    DEFAULT_DEDUPLICATION_ALGO DEFAULT_TOP_N PNone.

Definition extracts_something (yake : yake_module) (case : string * string)
  : Prop :=
  ∃ raw, capability yake (kwargs_for_language case.1) (PStr case.2) = Ok raw
         ∧ raw ≠ [].

(** ** Running the handler on examples *)

Example extract_three :
  extract_keywords stub_yake
    (post_json (PDict {[ "text" := PStr "alpha beta gamma" ]})) []
  = (Ok (success_response sample_keywords),
     [ EvKeywordExtractor
         (KeKwargs (PStr "en") (PInt 1)
            (PFloat (S754_finite false 8106479329266893 (-53)))
            (PStr "seqm") (PInt 10) PNone);
       EvExtractKeywords (PStr "alpha beta gamma") ]).
Proof. vm_compute. reflexivity. Qed.

Example extract_top_two :
  extract_keywords stub_yake
    (post_json (PDict {[ "text" := PStr "alpha beta gamma";
                         "maxKeywords" := PInt 2;
                         "language" := PStr "pt" ]})) []
  = (Ok (success_response (take 2 sample_keywords)),
     [ EvKeywordExtractor
         (KeKwargs (PStr "pt") (PInt 1)
            (PFloat (S754_finite false 8106479329266893 (-53)))
            (PStr "seqm") (PInt 10) PNone);
       EvExtractKeywords (PStr "alpha beta gamma") ]).
Proof. vm_compute. reflexivity. Qed.

Example extract_float_bound :
  extract_keywords stub_yake
    (post_json (PDict {[ "text" := PStr "alpha";
                         "maxKeywords" := PFloat (S754_finite false 3 (-1)) ]})) []
  = (Ok (error_response 500
           "slice indices must be integers or None or have an __index__ method"),
     capability_events stub_yake
       (resolved_kwargs {[ "text" := PStr "alpha" ]}) (PStr "alpha")).
Proof. vm_compute. reflexivity. Qed.

Example extract_list_body :
  extract_keywords stub_yake (post_json (PList [PStr "text"])) []
  = (Ok (error_response 500 "list indices must be integers or slices, not str"),
     []).
Proof. vm_compute. reflexivity. Qed.

Example extract_unparsed_body :
  extract_keywords stub_yake
    (FlaskRequest (Raise (Exception "400 Bad Request: Failed to decode JSON object")))
    []
  = (Ok (error_response 500 "400 Bad Request: Failed to decode JSON object"), []).
Proof. vm_compute. reflexivity. Qed.

Example extract_unsupported_language :
  extract_keywords unconstructible_yake
    (post_json (PDict {[ "text" := PStr "alpha"; "language" := PStr "xx" ]})) []
  = (Ok (error_response 500 "unsupported language"),
     [ EvKeywordExtractor
         (KeKwargs (PStr "xx") (PInt 1)
            (PFloat (S754_finite false 8106479329266893 (-53)))
            (PStr "seqm") (PInt 10) PNone) ]).
Proof. vm_compute. reflexivity. Qed.

Example extract_null_bound :
  extract_keywords stub_yake
    (post_json (PDict {[ "text" := PStr "alpha"; "maxKeywords" := PNone ]})) []
  = (Ok (success_response sample_keywords),
     capability_events stub_yake
       (resolved_kwargs {[ "text" := PStr "alpha" ]}) (PStr "alpha")).
Proof. vm_compute. reflexivity. Qed.

Example health_runs : health [] = (Ok healthy_response, []).
Proof. reflexivity. Qed.

(** ** How the handler runs on a mapping payload *)

Ltac unfold_try :=
  unfold extract_keywords_try,
    call_KeywordExtractor, call_extract_keywords, post_json,
    mbind, M_bind, bind, lift, mret, M_ret, ret; simpl.

Lemma truthy_dict_lookup (m : gmap string pyval) (k : string) (v : pyval) :
  m !! k = Some v → truthy (PDict m) = true.
Proof.
  intros Hk. simpl. rewrite bool_decide_eq_false_2; [done|].
  intros ->. by rewrite lookup_empty in Hk.
Qed.

Section Runs.

Context (yake : yake_module).

(** The [except] clause turns a raised exception into a 500 response and
    leaves a returned response alone. *)
Lemma extract_keywords_except (request : flask_request) (tr : list event) :
  extract_keywords yake request tr
  = match extract_keywords_try yake request tr with
    | (Ok resp, tr') => (Ok resp, tr')
    | (Raise e, tr') => (Ok (error_response 500 (exn_str e)), tr')
    end.
Proof. reflexivity. Qed.

Lemma try_missing (m : gmap string pyval) (tr : list event) :
  m !! "text" = None →
  extract_keywords_try yake (post_json (PDict m)) tr
  = (Ok (error_response 400 "Missing required field: text"), tr).
Proof.
  intros Hm. unfold_try.
  destruct (bool_decide (m = ∅)); simpl; [done|].
  rewrite Hm. rewrite bool_decide_eq_false_2; [done|].
  by intros [? ?].
Qed.

Lemma try_invalid (m : gmap string pyval) (t : pyval) (tr : list event) :
  m !! "text" = Some t →
  truthy t = false ∨ isinstance_str t = false →
  extract_keywords_try yake (post_json (PDict m)) tr
  = (Ok (error_response 400 "Invalid text field: must be non-empty string"), tr).
Proof.
  intros Hm Hbad.
  pose proof (truthy_dict_lookup _ _ _ Hm) as Hd. simpl in Hd.
  unfold_try. rewrite Hd. simpl. rewrite Hm.
  rewrite bool_decide_eq_true_2 by eauto. simpl.
  assert (negb (truthy t) || negb (isinstance_str t) = true) as ->.
  { destruct Hbad as [-> | ->]; simpl; [done | by rewrite orb_true_r]. }
  done.
Qed.

Lemma try_valid (m : gmap string pyval) (s : string) (tr : list event) :
  m !! "text" = Some (PStr s) → s ≠ "" →
  extract_keywords_try yake (post_json (PDict m)) tr
  = (match capability yake (resolved_kwargs m) (PStr s) with
     | Raise e => Raise e
     | Ok raw =>
         match py_slice_to raw (resolved_max_keywords m) with
         | Ok sliced => Ok (success_response sliced)
         | Raise e => Raise e
         end
     end,
     tr ++ capability_events yake (resolved_kwargs m) (PStr s)).
Proof.
  intros Hm Hs.
  pose proof (truthy_dict_lookup _ _ _ Hm) as Hd. simpl in Hd.
  unfold_try. rewrite Hd. simpl. rewrite Hm.
  rewrite bool_decide_eq_true_2 by eauto. simpl.
  rewrite (bool_decide_eq_false_2 (s = "")) by done. simpl.
  unfold capability, capability_events, resolved_max_keywords. simpl.
  fold (resolved_kwargs m).
  destruct (KeywordExtractor yake (resolved_kwargs m)) as [x|e]; [|done].
  rewrite <- app_assoc. simpl.
  destruct (ke_extract_keywords yake x (PStr s)) as [raw|e]; [|done].
  destruct (py_slice_to raw _) as [sliced|e]; [|done].
  unfold success_response. by rewrite length_fmap.
Qed.

Lemma run_missing (m : gmap string pyval) (tr : list event) :
  m !! "text" = None →
  extract_keywords yake (post_json (PDict m)) tr
  = (Ok (error_response 400 "Missing required field: text"), tr).
Proof. intros Hm. by rewrite extract_keywords_except, try_missing. Qed.

Lemma run_invalid (m : gmap string pyval) (t : pyval) (tr : list event) :
  m !! "text" = Some t →
  truthy t = false ∨ isinstance_str t = false →
  extract_keywords yake (post_json (PDict m)) tr
  = (Ok (error_response 400 "Invalid text field: must be non-empty string"), tr).
Proof. intros Hm Hbad. by rewrite extract_keywords_except, (try_invalid m t). Qed.

Lemma run_valid (m : gmap string pyval) (s : string) (tr : list event) :
  m !! "text" = Some (PStr s) → s ≠ "" →
  extract_keywords yake (post_json (PDict m)) tr
  = (Ok match capability yake (resolved_kwargs m) (PStr s) with
        | Raise e => error_response 500 (exn_str e)
        | Ok raw =>
            match py_slice_to raw (resolved_max_keywords m) with
            | Ok sliced => success_response sliced
            | Raise e => error_response 500 (exn_str e)
            end
        end,
     tr ++ capability_events yake (resolved_kwargs m) (PStr s)).
Proof.
  intros Hm Hs. rewrite extract_keywords_except, (try_valid m s) by done.
  destruct (capability _ _ _) as [raw|e]; [|done].
  by destruct (py_slice_to raw _).
Qed.

(** A string is valid text exactly when it is not empty; everything
    else under the [text] key is rejected. *)
Lemma text_cases (t : pyval) :
  (∃ s, t = PStr s ∧ s ≠ "") ∨ truthy t = false ∨ isinstance_str t = false.
Proof.
  destruct t; simpl; try (right; right; reflexivity).
  destruct (decide (s = "")) as [->|Hs]; [right; left; done|left; eauto].
Qed.

(** The [try] block returns a success, returns a validation failure, or
    raises: there is no fourth outcome. *)
Lemma try_shapes (request : flask_request) (tr : list event) :
  ∃ tr',
    (∃ kws, extract_keywords_try yake request tr
            = (Ok (success_response kws), tr')) ∨
    (∃ msg, msg ≠ "" ∧ tr' = tr ∧
            extract_keywords_try yake request tr
            = (Ok (error_response 400 msg), tr')) ∨
    (∃ e, extract_keywords_try yake request tr = (Raise e, tr')).
Proof.
  destruct request as [[data|e]]; [|exists tr; right; right; by exists e].
  assert (Hfalsy : truthy data = false →
    extract_keywords_try yake (FlaskRequest (Ok data)) tr
    = (Ok (error_response 400 "Missing required field: text"), tr)).
  { intros Hf. unfold_try. by rewrite Hf. }
  destruct (truthy data) eqn:Ht;
    [|exists tr; right; left; eexists; split_and!; [|done|by apply Hfalsy]; done].
  clear Hfalsy.
  destruct data as [|b|z|f|s|l|m]; simpl in Ht; try done.
  - exists tr. right. right. unfold_try. rewrite Ht. simpl. eauto.
  - exists tr. right. right. unfold_try. rewrite Ht. simpl. eauto.
  - exists tr. right. right. unfold_try. rewrite Ht. simpl. eauto.
  - exists tr. unfold_try. rewrite Ht. simpl.
    destruct (str_contains "text" s); simpl.
    + right. right. eauto.
    + right. left. eexists. split_and!; [|done|done]. done.
  - exists tr. unfold_try. rewrite Ht. simpl.
    destruct (existsb (eq_str "text") l); simpl.
    + right. right. eauto.
    + right. left. eexists. split_and!; [|done|done]. done.
  - destruct (m !! "text") as [t|] eqn:Hm.
    + destruct (text_cases t) as [(s & -> & Hs)|Hbad].
      * eexists. fold (post_json (PDict m)). rewrite (try_valid m s) by done.
        destruct (capability _ _ _) as [raw|e]; [|right; right; eauto].
        destruct (py_slice_to raw _) as [sliced|e]; [|right; right; eauto].
        left. eauto.
      * exists tr. right. left. eexists. split_and!; [|done|].
        2:{ fold (post_json (PDict m)). by apply (try_invalid m t). }
        done.
    + exists tr. right. left. eexists. split_and!; [|done|].
      2:{ fold (post_json (PDict m)). by apply try_missing. }
      done.
Qed.

Lemma extract_keywords_total (request : flask_request) (tr : list event) :
  ∃ resp tr', extract_keywords yake request tr = (Ok resp, tr').
Proof.
  rewrite extract_keywords_except.
  destruct (extract_keywords_try yake request tr) as [[resp|e] tr']; eauto.
Qed.

End Runs.

(** ** Result shaping *)

Lemma slice_to_int_nonneg {A : Type} (l : list A) (k : Z) :
  0 ≤ k → slice_to_int l k = take (Z.to_nat k `min` length l) l.
Proof.
  intros Hk. unfold slice_to_int.
  apply Z.leb_le in Hk. rewrite Hk.
  destruct (Nat.le_ge_cases (Z.to_nat k) (length l)) as [Hle|Hge].
  - by rewrite Nat.min_l.
  - rewrite Nat.min_r by done. by rewrite !take_ge.
Qed.

Lemma slice_to_int_neg {A : Type} (l : list A) (k : Z) :
  k < 0 → slice_to_int l k = take (length l - Z.to_nat (- k)) l.
Proof.
  intros Hk. unfold slice_to_int.
  destruct (0 <=? k) eqn:Hle; [|done].
  apply Z.leb_le in Hle. lia.
Qed.

(** C1: for a valid non-empty string [text] and a resolved
    [maxKeywords = k >= 0], when the capability returns the sequence
    [raw] of n pairs, the response is a 200 whose [keywords] are the
    first min(k, n) pairs of [raw], in the order of [raw], each mapped
    to {text: phrase, score: float(score)}, and whose [count] is the
    length of that truncated sequence, min(k, n). *)
Theorem C1_first_k_in_capability_order
  (yake : yake_module) (m : gmap string pyval) (s : string) (k : Z)
  (raw : list (string * spec_float)) (tr : list event) :
  m !! "text" = Some (PStr s) → s ≠ "" →
  resolved_max_keywords m = PInt k → 0 ≤ k →
  capability yake (resolved_kwargs m) (PStr s) = Ok raw →
  extract_keywords yake (post_json (PDict m)) tr
  = (Ok (Response
           (PDict {[ "keywords" :=
                       PList (keyword_entry <$>
                                take (Z.to_nat k `min` length raw) raw);
                     "count" :=
                       PInt (Z.of_nat
                               (length (take (Z.to_nat k `min` length raw) raw))) ]})
           200),
     tr ++ capability_events yake (resolved_kwargs m) (PStr s))
  ∧ Z.of_nat (length (take (Z.to_nat k `min` length raw) raw))
    = Z.min k (Z.of_nat (length raw))
  ∧ ∀ (i : nat) (phrase : string) (score : spec_float),
      take (Z.to_nat k `min` length raw) raw !! i = Some (phrase, score) →
      raw !! i = Some (phrase, score) ∧
      (keyword_entry <$> take (Z.to_nat k `min` length raw) raw) !! i
      = Some (PDict {[ "text" := PStr phrase; "score" := PFloat score ]}).
Proof.
  intros Hm Hs Hk Hk0 Hcap. split_and!.
  - rewrite (run_valid yake m s) by done.
    rewrite Hcap, Hk. simpl. by rewrite slice_to_int_nonneg.
  - rewrite length_take. lia.
  - intros i phrase score Hi. split.
    + apply lookup_take_Some in Hi. tauto.
    + rewrite list_lookup_fmap, Hi. done.
Qed.

Lemma C1_witness :
  extract_keywords stub_yake
    (post_json (PDict {[ "text" := PStr "alpha beta gamma";
                         "maxKeywords" := PInt 2 ]})) []
  = (Ok (Response
           (PDict {[ "keywords" :=
                       PList (keyword_entry <$> take 2 sample_keywords);
                     "count" := PInt 2 ]})
           200),
     [ EvKeywordExtractor
         (resolved_kwargs {[ "text" := PStr "alpha beta gamma" ]});
       EvExtractKeywords (PStr "alpha beta gamma") ]).
Proof.
  refine (proj1 (C1_first_k_in_capability_order stub_yake
                   {[ "text" := PStr "alpha beta gamma"; "maxKeywords" := PInt 2 ]}
                   "alpha beta gamma" 2 sample_keywords [] _ _ _ _ _));
    [reflexivity | discriminate | reflexivity | lia | reflexivity].
Defined.

Lemma success_response_count (kws kws' : list (string * spec_float)) :
  success_response kws = success_response kws' → length kws = length kws'.
Proof.
  unfold success_response. intros H.
  apply (f_equal (λ r, lookup_body r "count")) in H.
  unfold lookup_body in H. simpl in H.
  rewrite !lookup_insert_ne, !lookup_singleton_eq in H by done.
  injection H as H. lia.
Qed.

(** C2 (as the code has it): with a valid [text], a resolved
    [maxKeywords = k <= 0] and a capability answer [raw] of n pairs, the
    response is a 200 and never an error.  For [k = 0] its [keywords]
    are empty and [count] is 0.  For [k < 0] the slice [raw[:k]] drops
    the last [-k] pairs: [keywords] holds the first n - |k| pairs (none
    when |k| >= n) and [count] is their number. *)
Theorem C2_nonpositive_max_keywords
  (yake : yake_module) (m : gmap string pyval) (s : string) (k : Z)
  (raw : list (string * spec_float)) (tr : list event) :
  m !! "text" = Some (PStr s) → s ≠ "" →
  resolved_max_keywords m = PInt k → k ≤ 0 →
  capability yake (resolved_kwargs m) (PStr s) = Ok raw →
  (k = 0 →
   extract_keywords yake (post_json (PDict m)) tr
   = (Ok (Response (PDict {[ "keywords" := PList []; "count" := PInt 0 ]}) 200),
      tr ++ capability_events yake (resolved_kwargs m) (PStr s)))
  ∧ (k < 0 →
     extract_keywords yake (post_json (PDict m)) tr
     = (Ok (success_response (take (length raw - Z.to_nat (- k)) raw)),
        tr ++ capability_events yake (resolved_kwargs m) (PStr s))
     ∧ length (take (length raw - Z.to_nat (- k)) raw)
       = (length raw - Z.to_nat (- k))%nat)
  ∧ ((length raw ≤ Z.to_nat (- k))%nat →
     take (length raw - Z.to_nat (- k)) raw = []).
Proof.
  intros Hm Hs Hk Hk0 Hcap. split_and!.
  - intros ->. rewrite (run_valid yake m s) by done.
    rewrite Hcap, Hk. simpl. unfold slice_to_int. simpl. by rewrite take_0.
  - intros Hneg. split.
    + rewrite (run_valid yake m s) by done.
      rewrite Hcap, Hk. simpl. by rewrite slice_to_int_neg.
    + rewrite length_take. lia.
  - intros Hle. replace (length raw - Z.to_nat (- k))%nat with 0%nat by lia.
    apply take_0.
Qed.

Lemma C2_witness :
  extract_keywords stub_yake
    (post_json (PDict {[ "text" := PStr "alpha beta gamma";
                         "maxKeywords" := PInt 0 ]})) []
  = (Ok (Response (PDict {[ "keywords" := PList []; "count" := PInt 0 ]}) 200),
     [ EvKeywordExtractor
         (resolved_kwargs {[ "text" := PStr "alpha beta gamma" ]});
       EvExtractKeywords (PStr "alpha beta gamma") ]).
Proof.
  refine (proj1 (C2_nonpositive_max_keywords stub_yake
                   {[ "text" := PStr "alpha beta gamma"; "maxKeywords" := PInt 0 ]}
                   "alpha beta gamma" 0 sample_keywords [] _ _ _ _ _) _);
    [reflexivity | discriminate | reflexivity | lia | reflexivity | reflexivity].
Defined.

(** C2 as stated fails: [maxKeywords = -1] on a capability answer of
    three pairs yields the first two pairs and [count = 2], not an empty
    sequence. *)
Lemma C2_counterexample :
  extract_keywords stub_yake
    (post_json (PDict {[ "text" := PStr "alpha beta gamma";
                         "maxKeywords" := PInt (-1) ]})) []
  = (Ok (success_response (take 2 sample_keywords)),
     [ EvKeywordExtractor
         (resolved_kwargs {[ "text" := PStr "alpha beta gamma" ]});
       EvExtractKeywords (PStr "alpha beta gamma") ])
  ∧ success_response (take 2 sample_keywords)
    ≠ Response (PDict {[ "keywords" := PList []; "count" := PInt 0 ]}) 200.
Proof.
  split; [vm_compute; reflexivity|].
  intros H. by apply (success_response_count _ []) in H.
Qed.

(** ** Validation *)

Lemma error_response_inj (c c' : Z) (msg msg' : string) :
  error_response c msg = error_response c' msg' → c = c' ∧ msg = msg'.
Proof.
  intros H. split.
  - by apply (f_equal status) in H.
  - apply (f_equal (λ r, lookup_body r "error")) in H.
    unfold lookup_body in H. simpl in H.
    rewrite !lookup_singleton_eq in H. by injection H.
Qed.

(** C3 (as the code has it): when the parsed body is falsy ([null],
    [false], zero, an empty string, list or mapping) or is a mapping
    without a [text] key, the response is a 400 whose error message is
    "Missing required field: text", and the library is not entered. *)
Theorem C3_missing_text
  (yake : yake_module) (data : pyval) (tr : list event) :
  truthy data = false ∨ (∃ m, data = PDict m ∧ m !! "text" = None) →
  extract_keywords yake (post_json data) tr
  = (Ok (error_response 400 "Missing required field: text"), tr).
Proof.
  intros [Hfalsy | (m & -> & Hm)].
  - rewrite extract_keywords_except. unfold_try. by rewrite Hfalsy.
  - by apply run_missing.
Qed.

Lemma C3_witness :
  extract_keywords stub_yake (post_json (PDict {[ "language" := PStr "en" ]})) []
  = (Ok (error_response 400 "Missing required field: text"), []).
Proof.
  apply (C3_missing_text stub_yake (PDict {[ "language" := PStr "en" ]}) []).
  right. exists {[ "language" := PStr "en" ]}. split; reflexivity.
Defined.

(** C3 as stated fails twice.  A body that parses to the number 5 is not
    a mapping, and [ 'text' not in 5 ] raises, which the handler reports
    as a 500.  And where the 400 is produced, its message starts with a
    capital letter. *)
Lemma C3_counterexample :
  extract_keywords stub_yake (post_json (PInt 5)) []
  = (Ok (error_response 500 "argument of type 'int' is not iterable"), [])
  ∧ error_response 500 "argument of type 'int' is not iterable"
    ≠ error_response 400 "missing required field: text"
  ∧ extract_keywords stub_yake
      (post_json (PDict {[ "language" := PStr "en" ]})) []
    = (Ok (error_response 400 "Missing required field: text"), [])
  ∧ error_response 400 "Missing required field: text"
    ≠ error_response 400 "missing required field: text".
Proof.
  split_and!.
  - vm_compute. reflexivity.
  - intros H. apply error_response_inj in H as [H _]. discriminate.
  - vm_compute. reflexivity.
  - intros H. apply error_response_inj in H as [_ H]. discriminate.
Qed.

(** C4 (as the code has it): when the payload has a [text] key whose
    value is the empty string or is not a string, the response is a 400
    whose error message is "Invalid text field: must be non-empty
    string"; a non-string [text] and an empty [text] get the same
    response. *)
Theorem C4_invalid_text
  (yake : yake_module) (m : gmap string pyval) (t : pyval) (tr : list event) :
  m !! "text" = Some t →
  t = PStr "" ∨ isinstance_str t = false →
  extract_keywords yake (post_json (PDict m)) tr
  = (Ok (error_response 400 "Invalid text field: must be non-empty string"), tr)
  ∧ ∀ (m' : gmap string pyval) (tr' : list event),
      m' !! "text" = Some (PStr "") →
      (extract_keywords yake (post_json (PDict m')) tr').1
      = (extract_keywords yake (post_json (PDict m)) tr).1.
Proof.
  intros Hm Hbad.
  assert (truthy t = false ∨ isinstance_str t = false) as Hbad'.
  { destruct Hbad as [-> | ?]; [left; reflexivity | by right]. }
  split.
  - by apply (run_invalid yake m t).
  - intros m' tr' Hm'.
    rewrite (run_invalid yake m t), (run_invalid yake m' (PStr "")); auto.
Qed.

Lemma C4_witness :
  extract_keywords stub_yake (post_json (PDict {[ "text" := PInt 42 ]})) []
  = (Ok (error_response 400 "Invalid text field: must be non-empty string"), []).
Proof.
  refine (proj1 (C4_invalid_text stub_yake {[ "text" := PInt 42 ]} (PInt 42) []
                   _ _));
    [reflexivity | right; reflexivity].
Defined.

(** C4 as stated fails on the message: for an empty [text] the handler
    answers "Invalid text field: ...", with a capital letter. *)
Lemma C4_counterexample :
  extract_keywords stub_yake (post_json (PDict {[ "text" := PStr "" ]})) []
  = (Ok (error_response 400 "Invalid text field: must be non-empty string"), [])
  ∧ error_response 400 "Invalid text field: must be non-empty string"
    ≠ error_response 400 "invalid text field: must be non-empty string".
Proof.
  split.
  - vm_compute. reflexivity.
  - intros H. apply error_response_inj in H as [_ H]. discriminate.
Qed.

(** C5: a request that fails validation (its mapping has no [text], an
    empty [text] or a non-string [text]) never enters the library: the
    trace is unchanged.  It is answered with status 400, which is not
    the 500 of extraction failures, and a non-empty [error] message.
    Conversely every 400 the handler gives, on whatever request, was
    produced without entering the library and carries a non-empty
    [error]. *)
Theorem C5_validation_failure_no_capability (yake : yake_module) :
  (∀ (m : gmap string pyval) (tr : list event),
     m !! "text" = None ∨
     (∃ t, m !! "text" = Some t ∧ (t = PStr "" ∨ isinstance_str t = false)) →
     ∃ (resp : response) (msg : string),
       extract_keywords yake (post_json (PDict m)) tr = (Ok resp, tr)
       ∧ resp = error_response 400 msg
       ∧ msg ≠ ""
       ∧ status resp = 400 ∧ status resp ≠ 500
       ∧ lookup_body resp "error" = Some (PStr msg))
  ∧ (∀ (request : flask_request) (tr tr' : list event) (resp : response),
       extract_keywords yake request tr = (Ok resp, tr') →
       status resp = 400 →
       tr' = tr ∧ ∃ msg, msg ≠ "" ∧ resp = error_response 400 msg).
Proof.
  split.
  - intros m tr [Hm | (t & Hm & Hbad)].
    + eexists _, _. rewrite run_missing by done.
      split_and!; [reflexivity | reflexivity | done | done | done | done].
    + eexists _, _. rewrite (run_invalid yake m t); [|done|].
      * split_and!; [reflexivity | reflexivity | done | done | done | done].
      * destruct Hbad as [-> | ?]; [left; reflexivity | by right].
  - intros request tr tr' resp Hrun Hstatus.
    rewrite extract_keywords_except in Hrun.
    destruct (try_shapes yake request tr)
      as (tr1 & [(kws & Htry) | [(msg & Hmsg & -> & Htry) | (e & Htry)]]);
      rewrite Htry in Hrun; injection Hrun as <- <-; try done.
    split; [done|]. by exists msg.
Qed.

Lemma C5_witness :
  ∃ (resp : response) (msg : string),
    extract_keywords failing_yake (post_json (PDict {[ "text" := PStr "" ]})) []
    = (Ok resp, [])
    ∧ resp = error_response 400 msg
    ∧ msg ≠ ""
    ∧ status resp = 400 ∧ status resp ≠ 500
    ∧ lookup_body resp "error" = Some (PStr msg).
Proof.
  apply (proj1 (C5_validation_failure_no_capability failing_yake)
           {[ "text" := PStr "" ]} []).
  right. exists (PStr ""). split; [reflexivity | left; reflexivity].
Defined.

(** ** Extraction failures *)

Lemma capability_events_counts (yake : yake_module) (kw : ke_kwargs)
  (text : pyval) :
  constructor_calls (capability_events yake kw text) = 1%nat
  ∧ (extraction_calls (capability_events yake kw text) ≤ 1)%nat.
Proof.
  unfold constructor_calls, extraction_calls, capability_events.
  destruct (KeywordExtractor yake kw); simpl; lia.
Qed.

(** C6: with a valid [text], when the capability raises [e] (in the
    constructor or in the extraction method, whatever [e] is), the
    response is a 500 whose [error] is [str(e)] unchanged, and the
    library was entered for a single run of the capability: one
    constructor call and at most one extraction call, with no retry. *)
Theorem C6_capability_failure_is_500
  (yake : yake_module) (m : gmap string pyval) (s : string) (e : pyexn)
  (tr : list event) :
  m !! "text" = Some (PStr s) → s ≠ "" →
  capability yake (resolved_kwargs m) (PStr s) = Raise e →
  ∃ calls : list event,
    extract_keywords yake (post_json (PDict m)) tr
    = (Ok (Response (PDict {[ "error" := PStr (exn_str e) ]}) 500), tr ++ calls)
    ∧ calls = capability_events yake (resolved_kwargs m) (PStr s)
    ∧ constructor_calls calls = 1%nat
    ∧ (extraction_calls calls ≤ 1)%nat.
Proof.
  intros Hm Hs Hcap. eexists. split_and!; [|reflexivity|..].
  - rewrite (run_valid yake m s) by done. by rewrite Hcap.
  - apply capability_events_counts.
  - apply capability_events_counts.
Qed.

Lemma C6_witness :
  ∃ calls : list event,
    extract_keywords failing_yake
      (post_json (PDict {[ "text" := PStr "alpha beta gamma" ]})) []
    = (Ok (Response (PDict {[ "error" := PStr "extraction failed" ]}) 500),
       [] ++ calls)
    ∧ calls = capability_events failing_yake
                (resolved_kwargs {[ "text" := PStr "alpha beta gamma" ]})
                (PStr "alpha beta gamma")
    ∧ constructor_calls calls = 1%nat
    ∧ (extraction_calls calls ≤ 1)%nat.
Proof.
  apply (C6_capability_failure_is_500 failing_yake
           {[ "text" := PStr "alpha beta gamma" ]} "alpha beta gamma"
           (Exception "extraction failed") []);
    [reflexivity | discriminate | reflexivity].
Defined.

(** ** Defaults *)

(** Making an omitted optional field explicit at its default changes
    neither the constructor arguments nor the slice bound. *)
Lemma resolved_insert_default (m : gmap string pyval) (field : string)
  (dflt : pyval) :
  (field, dflt) ∈ optional_defaults → m !! field = None →
  field ≠ "text"
  ∧ resolved_kwargs (<[field := dflt]> m) = resolved_kwargs m
  ∧ resolved_max_keywords (<[field := dflt]> m) = resolved_max_keywords m.
Proof.
  intros Hin Hnone. unfold optional_defaults in Hin.
  repeat (apply elem_of_cons in Hin as [Hin | Hin];
          [injection Hin as -> ->;
           unfold resolved_kwargs, resolved_max_keywords;
           split_and!; [done|..];
           repeat first [rewrite lookup_insert_eq | rewrite lookup_insert_ne by done];
           rewrite ?Hnone; done|]).
  by apply elem_of_nil in Hin.
Qed.

Lemma run_depends_on_resolution (yake : yake_module)
  (m m' : gmap string pyval) (tr : list event) :
  m' !! "text" = m !! "text" →
  resolved_kwargs m' = resolved_kwargs m →
  resolved_max_keywords m' = resolved_max_keywords m →
  extract_keywords yake (post_json (PDict m')) tr
  = extract_keywords yake (post_json (PDict m)) tr.
Proof.
  intros Htext Hkw Hmax.
  destruct (m !! "text") as [t|] eqn:Hm.
  - destruct (text_cases t) as [(s & -> & Hs)|Hbad].
    + rewrite (run_valid yake m s), (run_valid yake m' s) by done.
      by rewrite Hkw, Hmax.
    + by rewrite (run_invalid yake m t), (run_invalid yake m' t).
  - by rewrite !run_missing.
Qed.

(** C7: a request supplying only [text] is handled exactly as the
    request that also sets every optional field to its documented
    default; and making any one omitted optional field explicit at its
    default, whatever else the payload holds, changes nothing: each
    omitted field takes its own default. *)
Theorem C7_defaults_field_independent (yake : yake_module) :
  (∀ (t : pyval) (tr : list event),
     extract_keywords yake (post_json (PDict {[ "text" := t ]})) tr
     = extract_keywords yake (post_json (PDict (all_defaults_payload t))) tr)
  ∧ (∀ (m : gmap string pyval) (field : string) (dflt : pyval)
       (tr : list event),
       (field, dflt) ∈ optional_defaults → m !! field = None →
       extract_keywords yake (post_json (PDict m)) tr
       = extract_keywords yake (post_json (PDict (<[field := dflt]> m))) tr).
Proof.
  split.
  - intros t tr. symmetry. apply run_depends_on_resolution; reflexivity.
  - intros m field dflt tr Hin Hnone.
    destruct (resolved_insert_default m field dflt Hin Hnone)
      as (Hne & Hkw & Hmax).
    symmetry. apply run_depends_on_resolution; [|done|done].
    by rewrite lookup_insert_ne.
Qed.

Lemma C7_witness :
  extract_keywords stub_yake
    (post_json (PDict {[ "text" := PStr "alpha"; "language" := PStr "pt" ]})) []
  = extract_keywords stub_yake
      (post_json (PDict (<[ "topN" := PInt 10 ]>
                           {[ "text" := PStr "alpha"; "language" := PStr "pt" ]})))
      [].
Proof.
  apply (proj2 (C7_defaults_field_independent stub_yake)
           {[ "text" := PStr "alpha"; "language" := PStr "pt" ]}
           "topN" (PInt 10) []).
  - unfold optional_defaults. repeat constructor.
  - reflexivity.
Defined.

(** ** Every request is answered *)

(** C8: the handler always returns exactly one response and never lets
    an exception escape.  The response is a 200 success (the [try]
    block returned it; it carries [keywords] and [count] and no
    [error]), or a 400 validation failure (returned by the [try] block;
    a single non-empty [error]), or a 500 whose single [error] field is
    [str(e)] of the exception [e] the [try] block raised.  A raised
    exception is therefore never dropped, and no response mixes the
    success and the error shape. *)
Theorem C8_exactly_one_response
  (yake : yake_module) (request : flask_request) (tr : list event) :
  ∃ (resp : response) (tr' : list event),
    extract_keywords yake request tr = (Ok resp, tr')
    ∧ ((∃ kws, resp = success_response kws
               ∧ status resp = 200
               ∧ lookup_body resp "error" = None
               ∧ extract_keywords_try yake request tr = (Ok resp, tr'))
       ∨ (∃ msg, resp = error_response 400 msg
                 ∧ msg ≠ ""
                 ∧ lookup_body resp "keywords" = None
                 ∧ lookup_body resp "count" = None
                 ∧ extract_keywords_try yake request tr = (Ok resp, tr'))
       ∨ (∃ e, resp = error_response 500 (exn_str e)
               ∧ lookup_body resp "keywords" = None
               ∧ lookup_body resp "count" = None
               ∧ extract_keywords_try yake request tr = (Raise e, tr'))).
Proof.
  rewrite extract_keywords_except.
  destruct (try_shapes yake request tr)
    as (tr' & [(kws & Hrun) | [(msg & Hmsg & _ & Hrun) | (e & Hrun)]]);
    rewrite Hrun; eexists _, tr'; (split; [reflexivity|]).
  - left. exists kws. split_and!; done.
  - right. left. exists msg. split_and!; done.
  - right. right. exists e. split_and!; done.
Qed.

(** ** Health *)

Lemma serve_total (yake : yake_module) (rs : list http_request)
  (tr : list event) :
  ∃ resps tr', serve yake rs tr = (Ok resps, tr') ∧ length resps = length rs.
Proof.
  revert tr. induction rs as [|r rs IH]; intros tr.
  - by exists [], tr.
  - assert (∃ resp tr1, dispatch yake r tr = (Ok resp, tr1)) as (resp & tr1 & Hr).
    { destruct r as [|request]; simpl.
      - by eexists _, _.
      - apply extract_keywords_total. }
    destruct (IH tr1) as (resps & tr' & Hrs & Hlen).
    exists (resp :: resps), tr'. split; [|simpl; by rewrite Hlen].
    simpl. unfold mbind, M_bind, bind. by rewrite Hr, Hrs.
Qed.

Lemma serve_app (yake : yake_module) (rs rs' : list http_request)
  (tr tr1 tr2 : list event) (resps resps' : list response) :
  serve yake rs tr = (Ok resps, tr1) →
  serve yake rs' tr1 = (Ok resps', tr2) →
  serve yake (rs ++ rs') tr = (Ok (resps ++ resps'), tr2).
Proof.
  revert tr resps. induction rs as [|r rs IH]; intros tr resps Hrs Hrs'.
  - injection Hrs as <- <-. done.
  - simpl in *. unfold mbind, M_bind, bind in *.
    destruct (dispatch yake r tr) as [[resp|e] tr0]; [|done].
    destruct (serve yake rs tr0) as [[resps0|e] tr0'] eqn:Hrest; [|done].
    injection Hrs as <- <-.
    by rewrite (IH tr0 resps0 Hrest Hrs').
Qed.

(** C9: [GET /health] answers with status 200 and the fixed payload
    {"status": "healthy", "service": "YAKE Keyword Extraction Server",
    "version": "1.0.0"}; it reads no input, leaves the trace alone, and
    gives that same answer after any sequence of earlier requests,
    failed or not. *)
Theorem C9_health_fixed
  (yake : yake_module) (prior : list http_request) (tr : list event) :
  health tr
  = (Ok (Response
           (PDict {[ "status" := PStr "healthy";
                     "service" := PStr "YAKE Keyword Extraction Server";
                     "version" := PStr "1.0.0" ]})
           200),
     tr)
  ∧ ∃ (resps : list response) (tr' : list event),
      serve yake (prior ++ [GET_health]) tr
      = (Ok (resps ++ [healthy_response]), tr')
      ∧ length resps = length prior.
Proof.
  split; [reflexivity|].
  destruct (serve_total yake prior tr) as (resps & tr' & Hrun & Hlen).
  exists resps, tr'. split; [|done].
  by apply (serve_app yake prior [GET_health] tr tr' tr' resps [healthy_response]).
Qed.

(** ** Whitespace text *)

(** C10: any non-empty string passes validation, a string of blanks
    included: the request is not answered with a 400, the constructor is
    called with the resolved parameters, and when it returns, the
    extraction method is called with the [text] exactly as it was
    sent. *)
Theorem C10_truthy_string_is_valid
  (yake : yake_module) (m : gmap string pyval) (s : string) (tr : list event) :
  m !! "text" = Some (PStr s) → s ≠ "" →
  ∃ resp : response,
    extract_keywords yake (post_json (PDict m)) tr
    = (Ok resp, tr ++ capability_events yake (resolved_kwargs m) (PStr s))
    ∧ status resp ≠ 400
    ∧ EvKeywordExtractor (resolved_kwargs m)
      ∈ capability_events yake (resolved_kwargs m) (PStr s)
    ∧ (∀ x, KeywordExtractor yake (resolved_kwargs m) = Ok x →
            capability_events yake (resolved_kwargs m) (PStr s)
            = [EvKeywordExtractor (resolved_kwargs m);
               EvExtractKeywords (PStr s)]).
Proof.
  intros Hm Hs. eexists. split_and!.
  - by apply run_valid.
  - destruct (capability _ _ _) as [raw|e]; [|done].
    by destruct (py_slice_to raw _).
  - unfold capability_events. apply list_elem_of_here.
  - intros x Hx. unfold capability_events. by rewrite Hx.
Qed.

Lemma C10_witness :
  ∃ resp : response,
    extract_keywords stub_yake (post_json (PDict {[ "text" := PStr " " ]})) []
    = (Ok resp,
       [] ++ capability_events stub_yake
               (resolved_kwargs {[ "text" := PStr " " ]}) (PStr " "))
    ∧ status resp ≠ 400
    ∧ EvKeywordExtractor (resolved_kwargs {[ "text" := PStr " " ]})
      ∈ capability_events stub_yake
          (resolved_kwargs {[ "text" := PStr " " ]}) (PStr " ")
    ∧ (∀ x, KeywordExtractor stub_yake (resolved_kwargs {[ "text" := PStr " " ]})
            = Ok x →
            capability_events stub_yake
              (resolved_kwargs {[ "text" := PStr " " ]}) (PStr " ")
            = [EvKeywordExtractor (resolved_kwargs {[ "text" := PStr " " ]});
               EvExtractKeywords (PStr " ")]).
Proof.
  apply (C10_truthy_string_is_valid stub_yake {[ "text" := PStr " " ]} " " []);
    [reflexivity | discriminate].
Defined.

(** ** Further properties of [extract_keywords] *)

Lemma py_slice_to_prefix {A : Type} (l kept : list A) (stop : pyval) :
  py_slice_to l stop = Ok kept → kept `prefix_of` l.
Proof.
  unfold py_slice_to, slice_to_int.
  destruct stop as [|b|k| | | |]; intros H; try done; injection H as <-.
  - done.
  - destruct (0 <=? _); apply prefix_take.
  - destruct (0 <=? k); apply prefix_take.
Qed.

(** How the handler runs on a body that is not a mapping: nothing is
    sent to the library, and the answer is the 400 for a missing [text]
    or a 500. *)
Lemma run_non_mapping (yake : yake_module) (data : pyval) :
  (∀ m, data ≠ PDict m) →
  ((∀ tr, extract_keywords yake (post_json data) tr
          = (Ok (error_response 400 "Missing required field: text"), tr))
   ∧ (truthy data = false ∨ py_in "text" data = Ok false))
  ∨ (∃ msg,
       (∀ tr, extract_keywords yake (post_json data) tr
              = (Ok (error_response 500 msg), tr))
       ∧ truthy data = true ∧ py_in "text" data ≠ Ok false).
Proof.
  intros Hnd.
  assert (∀ tr, extract_keywords yake (post_json data) tr
    = (match extract_keywords_try yake (post_json data) [] with
       | (Ok resp, _) => Ok resp
       | (Raise e, _) => Ok (error_response 500 (exn_str e))
       end, tr)) as Hrun.
  { intros tr. rewrite extract_keywords_except. unfold_try.
    destruct (truthy data); simpl; [|done].
    destruct data as [|b|z|f|s|l|m]; simpl; try done.
    - by destruct (str_contains "text" s).
    - by destruct (existsb (eq_str "text") l).
    - by destruct (Hnd m). }
  revert Hrun. unfold_try.
  destruct (truthy data) eqn:Ht; simpl; [|left; auto].
  destruct data as [|b|z|f|s|l|m]; simpl; try done;
    try (right; eexists; split_and!; [eassumption|done|done]).
  - destruct (str_contains "text" s); simpl.
    + right; eexists; split_and!; [eassumption|done|done].
    + left. auto.
  - destruct (existsb (eq_str "text") l); simpl.
    + right; eexists; split_and!; [eassumption|done|done].
    + left. auto.
  - by destruct (Hnd m).
Qed.

(** X1: a body that parses to something other than a JSON object never
    reaches the library and never gets a 200.  When it is truthy, it is
    answered 500 unless it is a list without the element "text" or a
    string without the substring "text": a list holding "text" or a
    string containing "text" passes the membership test and then fails
    on [data['text']]. *)
Theorem non_mapping_body_is_rejected
  (yake : yake_module) (data : pyval) (tr : list event) :
  (∀ m, data ≠ PDict m) →
  ∃ resp : response,
    extract_keywords yake (post_json data) tr = (Ok resp, tr)
    ∧ (status resp = 400 ∨ status resp = 500)
    ∧ (truthy data = true → py_in "text" data ≠ Ok false → status resp = 500)
    ∧ (truthy data = false ∨ py_in "text" data = Ok false →
       resp = error_response 400 "Missing required field: text").
Proof.
  intros Hnd.
  destruct (run_non_mapping yake data Hnd)
    as [[Hrun Hwhy] | (msg & Hrun & Ht & Hin)];
    eexists; (split; [exact (Hrun tr)|]); split_and!; auto.
  - intros Ht Hin. destruct Hwhy; congruence.
  - intros [Hf | Hf]; congruence.
Qed.

Lemma witness_list_body_holding_text :
  ∃ resp : response,
    extract_keywords stub_yake (post_json (PList [PInt 1; PStr "text"])) []
    = (Ok resp, [])
    ∧ (status resp = 400 ∨ status resp = 500)
    ∧ (truthy (PList [PInt 1; PStr "text"]) = true →
       py_in "text" (PList [PInt 1; PStr "text"]) ≠ Ok false →
       status resp = 500)
    ∧ (truthy (PList [PInt 1; PStr "text"]) = false
       ∨ py_in "text" (PList [PInt 1; PStr "text"]) = Ok false →
       resp = error_response 400 "Missing required field: text").
Proof.
  apply (non_mapping_body_is_rejected stub_yake
           (PList [PInt 1; PStr "text"]) []).
  discriminate.
Defined.

(** X2: whatever the request, a 200 means: the body was a mapping with a
    non-empty string [text], the capability returned a sequence for the
    resolved parameters, and the response carries a prefix of that
    sequence, entry by entry, with [count] its length.  The handler
    never pads, reorders or invents keywords. *)
Theorem success_is_a_prefix_of_the_capability_output
  (yake : yake_module) (request : flask_request) (tr tr' : list event)
  (resp : response) :
  extract_keywords yake request tr = (Ok resp, tr') →
  status resp = 200 →
  ∃ (m : gmap string pyval) (s : string) (raw kept : list (string * spec_float)),
    request_json request = Ok (PDict m)
    ∧ m !! "text" = Some (PStr s) ∧ s ≠ ""
    ∧ capability yake (resolved_kwargs m) (PStr s) = Ok raw
    ∧ kept `prefix_of` raw
    ∧ resp = success_response kept
    ∧ lookup_body resp "count" = Some (PInt (Z.of_nat (length kept)))
    ∧ (length kept ≤ length raw)%nat.
Proof.
  intros Hrun Hst. destruct request as [[data|e]].
  2:{ rewrite extract_keywords_except in Hrun. unfold_try.
      injection Hrun as <- <-. done. }
  fold (post_json data) in Hrun.
  assert ((∃ m, data = PDict m) ∨ (∀ m, data ≠ PDict m)) as [[m ->]|Hnd]
    by (destruct data; eauto).
  - destruct (m !! "text") as [t|] eqn:Hm.
    + destruct (text_cases t) as [(s & -> & Hs)|Hbad].
      * rewrite (run_valid yake m s) in Hrun by done.
        destruct (capability _ _ _) as [raw|e] eqn:Hcap;
          [|injection Hrun as <- <-; done].
        destruct (py_slice_to raw _) as [kept|e] eqn:Hsl;
          [|injection Hrun as <- <-; done].
        injection Hrun as <- <-.
        apply py_slice_to_prefix in Hsl.
        exists m, s, raw, kept. split_and!; try done.
        by apply prefix_length.
      * rewrite (run_invalid yake m t) in Hrun by done.
        injection Hrun as <- <-. done.
    + rewrite run_missing in Hrun by done. injection Hrun as <- <-. done.
  - destruct (run_non_mapping yake data Hnd)
      as [[Hrun' _] | (msg & Hrun' & _)];
      rewrite Hrun' in Hrun; injection Hrun as <- <-; done.
Qed.

Lemma witness_success_prefix :
  ∃ (m : gmap string pyval) (s : string) (raw kept : list (string * spec_float)),
    request_json
      (post_json (PDict {[ "text" := PStr "alpha beta gamma";
                           "maxKeywords" := PInt 2 ]}))
    = Ok (PDict m)
    ∧ m !! "text" = Some (PStr s) ∧ s ≠ ""
    ∧ capability stub_yake (resolved_kwargs m) (PStr s) = Ok raw
    ∧ kept `prefix_of` raw
    ∧ success_response (take 2 sample_keywords) = success_response kept
    ∧ lookup_body (success_response (take 2 sample_keywords)) "count"
      = Some (PInt (Z.of_nat (length kept)))
    ∧ (length kept ≤ length raw)%nat.
Proof.
  apply (success_is_a_prefix_of_the_capability_output stub_yake
           (post_json (PDict {[ "text" := PStr "alpha beta gamma";
                                "maxKeywords" := PInt 2 ]}))
           []
           [ EvKeywordExtractor
               (resolved_kwargs {[ "text" := PStr "alpha beta gamma" ]});
             EvExtractKeywords (PStr "alpha beta gamma") ]
           (success_response (take 2 sample_keywords)));
    [vm_compute; reflexivity | reflexivity].
Defined.

(** X3: a [maxKeywords] that is neither an integer, a boolean nor
    [null] (a float such as 5.0, a string such as "5", a list, an
    object) is not rejected by validation.  The library is entered and
    answers, and only then the slice raises: the response is a 500 and
    the extraction work is lost. *)
Theorem non_integer_max_keywords_fails_after_extraction
  (yake : yake_module) (m : gmap string pyval) (s : string)
  (raw : list (string * spec_float)) (tr : list event) :
  m !! "text" = Some (PStr s) → s ≠ "" →
  capability yake (resolved_kwargs m) (PStr s) = Ok raw →
  (∀ k, resolved_max_keywords m ≠ PInt k) →
  (∀ b, resolved_max_keywords m ≠ PBool b) →
  resolved_max_keywords m ≠ PNone →
  extract_keywords yake (post_json (PDict m)) tr
  = (Ok (error_response 500
           "slice indices must be integers or None or have an __index__ method"),
     tr ++ capability_events yake (resolved_kwargs m) (PStr s))
  ∧ constructor_calls (capability_events yake (resolved_kwargs m) (PStr s))
    = 1%nat
  ∧ extraction_calls (capability_events yake (resolved_kwargs m) (PStr s))
    = 1%nat.
Proof.
  intros Hm Hs Hcap Hint Hbool Hnone. split_and!.
  - rewrite (run_valid yake m s) by done. rewrite Hcap.
    destruct (resolved_max_keywords m) as [|b|k| | | |]; try done.
    + by destruct (Hbool b).
    + by destruct (Hint k).
  - apply capability_events_counts.
  - unfold capability in Hcap. unfold extraction_calls, capability_events.
    by destruct (KeywordExtractor yake (resolved_kwargs m)).
Qed.

Lemma witness_string_max_keywords :
  extract_keywords stub_yake
    (post_json (PDict {[ "text" := PStr "alpha"; "maxKeywords" := PStr "5" ]}))
    []
  = (Ok (error_response 500
           "slice indices must be integers or None or have an __index__ method"),
     [] ++ capability_events stub_yake
             (resolved_kwargs
                {[ "text" := PStr "alpha"; "maxKeywords" := PStr "5" ]})
             (PStr "alpha")).
Proof.
  refine (proj1 (non_integer_max_keywords_fails_after_extraction stub_yake
                   {[ "text" := PStr "alpha"; "maxKeywords" := PStr "5" ]}
                   "alpha" sample_keywords [] _ _ _ _ _ _));
    [reflexivity | discriminate | reflexivity
    | intros k; discriminate | intros b; discriminate | discriminate].
Defined.

(** X4: a [maxKeywords] of [null] switches truncation off, so that every
    pair the capability returned is sent, however many; [true] counts as
    1 and [false] as 0. *)
Theorem null_or_boolean_max_keywords
  (yake : yake_module) (m : gmap string pyval) (s : string)
  (raw : list (string * spec_float)) (tr : list event) :
  m !! "text" = Some (PStr s) → s ≠ "" →
  capability yake (resolved_kwargs m) (PStr s) = Ok raw →
  (m !! "maxKeywords" = Some PNone →
   (extract_keywords yake (post_json (PDict m)) tr).1
   = Ok (success_response raw))
  ∧ (m !! "maxKeywords" = Some (PBool true) →
     (extract_keywords yake (post_json (PDict m)) tr).1
     = Ok (success_response (take 1 raw)))
  ∧ (m !! "maxKeywords" = Some (PBool false) →
     (extract_keywords yake (post_json (PDict m)) tr).1
     = Ok (success_response [])).
Proof.
  intros Hm Hs Hcap.
  split_and!; intros Hk; rewrite (run_valid yake m s) by done;
    rewrite Hcap; unfold resolved_max_keywords; rewrite Hk; simpl.
  - done.
  - done.
  - unfold slice_to_int. simpl. by rewrite take_0.
Qed.

Lemma witness_null_max_keywords :
  (extract_keywords stub_yake
     (post_json (PDict {[ "text" := PStr "alpha"; "maxKeywords" := PNone ]}))
     []).1
  = Ok (success_response sample_keywords).
Proof.
  refine (proj1 (null_or_boolean_max_keywords stub_yake
                   {[ "text" := PStr "alpha"; "maxKeywords" := PNone ]}
                   "alpha" sample_keywords [] _ _ _) _);
    [reflexivity | discriminate | reflexivity | reflexivity].
Defined.

(** X5: the optional fields that are present reach
    [yake.KeywordExtractor] as they were sent, whatever their JSON type
    and without any check, a [null] included: [language] as [lan],
    [windowSize] as [n], [deduplicationThreshold] as [dedupLim],
    [deduplicationAlgo] as [dedupFunc] and [topN] as [top];
    [features] is always [None]. *)
Theorem present_fields_reach_the_constructor_unchecked
  (yake : yake_module) (m : gmap string pyval) (s : string) (tr : list event)
  (vl vn vd va vt : pyval) :
  m !! "text" = Some (PStr s) → s ≠ "" →
  m !! "language" = Some vl →
  m !! "windowSize" = Some vn →
  m !! "deduplicationThreshold" = Some vd →
  m !! "deduplicationAlgo" = Some va →
  m !! "topN" = Some vt →
  (extract_keywords yake (post_json (PDict m)) tr).2
  = tr ++ capability_events yake (KeKwargs vl vn vd va vt PNone) (PStr s).
Proof.
  intros Hm Hs Hl Hn Hd Ha Ht. rewrite (run_valid yake m s) by done.
  unfold resolved_kwargs. by rewrite Hl, Hn, Hd, Ha, Ht.
Qed.

Lemma witness_unchecked_fields :
  (extract_keywords stub_yake
     (post_json (PDict {[ "text" := PStr "alpha";
                          "language" := PNone;
                          "windowSize" := PStr "two";
                          "deduplicationThreshold" := PInt 7;
                          "deduplicationAlgo" := PList [];
                          "topN" := PBool true ]})) []).2
  = [] ++ capability_events stub_yake
            (KeKwargs PNone (PStr "two") (PInt 7) (PList []) (PBool true) PNone)
            (PStr "alpha").
Proof.
  apply (present_fields_reach_the_constructor_unchecked stub_yake
           {[ "text" := PStr "alpha";
              "language" := PNone;
              "windowSize" := PStr "two";
              "deduplicationThreshold" := PInt 7;
              "deduplicationAlgo" := PList [];
              "topN" := PBool true ]}
           "alpha" [] PNone (PStr "two") (PInt 7) (PList []) (PBool true));
    [reflexivity | discriminate | reflexivity | reflexivity | reflexivity
    | reflexivity | reflexivity].
Defined.

(** X6: a key of the payload that the handler does not read changes
    nothing: adding it, with any value, leaves the response and the
    library calls as they were. *)
Theorem unknown_keys_are_ignored
  (yake : yake_module) (m : gmap string pyval) (key : string) (v : pyval)
  (tr : list event) :
  key ∉ request_fields →
  extract_keywords yake (post_json (PDict (<[key := v]> m))) tr
  = extract_keywords yake (post_json (PDict m)) tr.
Proof.
  intros Hkey. unfold request_fields in Hkey.
  rewrite !not_elem_of_cons in Hkey.
  destruct Hkey as (? & ? & ? & ? & ? & ? & ? & _).
  apply run_depends_on_resolution;
    unfold resolved_kwargs, resolved_max_keywords;
    by rewrite ?lookup_insert_ne by done.
Qed.

Lemma witness_unknown_key :
  extract_keywords stub_yake
    (post_json (PDict (<[ "max_keywords" := PInt 1 ]>
                         {[ "text" := PStr "alpha" ]}))) []
  = extract_keywords stub_yake (post_json (PDict {[ "text" := PStr "alpha" ]})) [].
Proof.
  apply (unknown_keys_are_ignored stub_yake {[ "text" := PStr "alpha" ]}
           "max_keywords" (PInt 1) []).
  unfold request_fields. rewrite !not_elem_of_cons.
  split_and!; try discriminate. apply not_elem_of_nil.
Defined.

(** X7: [maxKeywords] is a matter of the response only.  Whatever value
    it is given, the library is called, or not called, with the same
    arguments: the bound is never handed to YAKE. *)
Theorem max_keywords_never_reaches_the_library
  (yake : yake_module) (m : gmap string pyval) (v : pyval) (tr : list event) :
  (extract_keywords yake (post_json (PDict (<[ "maxKeywords" := v ]> m))) tr).2
  = (extract_keywords yake (post_json (PDict m)) tr).2.
Proof.
  assert (<[ "maxKeywords" := v ]> m !! "text" = m !! "text") as Htext
    by by rewrite lookup_insert_ne.
  assert (resolved_kwargs (<[ "maxKeywords" := v ]> m) = resolved_kwargs m)
    as Hkw.
  { unfold resolved_kwargs. by rewrite !lookup_insert_ne by done. }
  destruct (m !! "text") as [t|] eqn:Hm.
  - destruct (text_cases t) as [(s & -> & Hs)|Hbad].
    + rewrite (run_valid yake m s), (run_valid yake _ s) by done.
      simpl. by rewrite Hkw.
    + by rewrite (run_invalid yake m t), (run_invalid yake _ t).
  - by rewrite !run_missing.
Qed.

(** ** Requests do not interfere *)

Lemma calls_app (evs evs' : list event) :
  constructor_calls (evs ++ evs') = (constructor_calls evs + constructor_calls evs')%nat
  ∧ extraction_calls (evs ++ evs') = (extraction_calls evs + extraction_calls evs')%nat.
Proof.
  unfold constructor_calls, extraction_calls.
  by rewrite !List.filter_app, !length_app.
Qed.

(** One [POST /extract]: the response and the library calls it adds do
    not depend on the trace it starts from, and the calls are none or
    those of one run of the capability. *)
Lemma extract_keywords_events (yake : yake_module) (request : flask_request) :
  ∃ (resp : response) (evs : list event),
    (∀ tr, extract_keywords yake request tr = (Ok resp, tr ++ evs))
    ∧ (evs = [] ∨ ∃ kw text, evs = capability_events yake kw text).
Proof.
  destruct request as [[data|e]].
  2:{ eexists _, []. split; [|by left].
      intros tr. rewrite app_nil_r. reflexivity. }
  fold (post_json data).
  assert ((∃ m, data = PDict m) ∨ (∀ m, data ≠ PDict m)) as [[m ->]|Hnd]
    by (destruct data; eauto).
  - destruct (m !! "text") as [t|] eqn:Hm.
    + destruct (text_cases t) as [(s & -> & Hs)|Hbad].
      * eexists _, _. split; [intros tr; by apply run_valid|]. right. eauto.
      * eexists _, []. split; [|by left].
        intros tr. rewrite app_nil_r. by apply (run_invalid yake m t).
    + eexists _, []. split; [|by left].
      intros tr. rewrite app_nil_r. by apply run_missing.
  - destruct (run_non_mapping yake data Hnd) as [[Hrun _] | (msg & Hrun & _)];
      (eexists _, []; split; [|by left]);
      intros tr; rewrite app_nil_r; apply Hrun.
Qed.

Lemma dispatch_events (yake : yake_module) (r : http_request) :
  ∃ (resp : response) (evs : list event),
    (∀ tr, dispatch yake r tr = (Ok resp, tr ++ evs))
    ∧ (constructor_calls evs ≤ post_count [r])%nat
    ∧ (extraction_calls evs ≤ constructor_calls evs)%nat.
Proof.
  destruct r as [|request]; simpl.
  - exists healthy_response, []. split; [|done].
    intros tr. by rewrite app_nil_r.
  - destruct (extract_keywords_events yake request)
      as (resp & evs & Hrun & [-> | (kw & text & ->)]);
      exists resp; eexists; (split; [exact Hrun|]).
    + unfold post_count, constructor_calls, extraction_calls. simpl. lia.
    + destruct (capability_events_counts yake kw text) as [-> Hle].
      unfold post_count. simpl. lia.
Qed.

Lemma serve_events (yake : yake_module) (rs : list http_request) :
  ∃ (resps : list response) (evs : list event),
    (∀ tr, serve yake rs tr = (Ok resps, tr ++ evs))
    ∧ length resps = length rs
    ∧ (constructor_calls evs ≤ post_count rs)%nat
    ∧ (extraction_calls evs ≤ constructor_calls evs)%nat.
Proof.
  induction rs as [|r rs (resps & evs & Hrun & Hlen & Hc & He)].
  - exists [], []. split_and!; try done. intros tr. by rewrite app_nil_r.
  - destruct (dispatch_events yake r) as (resp & evs0 & Hr & Hc0 & He0).
    exists (resp :: resps), (evs0 ++ evs). split_and!.
    + intros tr. simpl. unfold mbind, M_bind, bind.
      by rewrite Hr, Hrun, app_assoc.
    + simpl. by rewrite Hlen.
    + destruct (calls_app evs0 evs) as [-> _].
      change (r :: rs) with ([r] ++ rs). unfold post_count in *.
      rewrite List.filter_app, length_app. lia.
    + destruct (calls_app evs0 evs) as [-> ->]. lia.
Qed.

(** X8: the application keeps nothing between requests.  A request
    served after any sequence of earlier ones gets the response, and
    makes the library calls, that it gets when it is served first; and
    the earlier ones are served as if it did not follow. *)
Theorem requests_are_served_independently
  (yake : yake_module) (prior : list http_request) (r : http_request)
  (tr : list event) :
  ∃ (resps : list response) (resp : response) (evs_prior evs : list event),
    serve yake (prior ++ [r]) tr
    = (Ok (resps ++ [resp]), tr ++ evs_prior ++ evs)
    ∧ length resps = length prior
    ∧ serve yake prior [] = (Ok resps, evs_prior)
    ∧ dispatch yake r [] = (Ok resp, evs).
Proof.
  destruct (serve_events yake prior) as (resps & evs_prior & Hprior & Hlen & _).
  destruct (dispatch_events yake r) as (resp & evs & Hr & _).
  exists resps, resp, evs_prior, evs. split_and!.
  - apply (serve_app yake prior [r] tr (tr ++ evs_prior)); [apply Hprior|].
    simpl. unfold mbind, M_bind, bind. rewrite Hr. simpl.
    by rewrite app_assoc.
  - done.
  - by rewrite Hprior.
  - by rewrite Hr.
Qed.

(** X9: over any sequence of requests every request is answered, the
    constructor of the library is called at most once per
    [POST /extract] and never for [GET /health], and the extraction
    method is called at most as often as the constructor: no request is
    retried or replayed. *)
Theorem library_calls_are_bounded_by_posts
  (yake : yake_module) (rs : list http_request) (tr : list event) :
  ∃ (resps : list response) (evs : list event),
    serve yake rs tr = (Ok resps, tr ++ evs)
    ∧ length resps = length rs
    ∧ (constructor_calls evs ≤ post_count rs)%nat
    ∧ (extraction_calls evs ≤ constructor_calls evs)%nat.
Proof.
  destruct (serve_events yake rs) as (resps & evs & Hrun & Hlen & Hc & He).
  exists resps, evs. by rewrite Hrun.
Qed.

(** ** The check script: what each check accepts *)

Ltac unfold_script :=
  unfold call_urlopen, mbind, Client_bind, mret, Client_ret; simpl.

Section ScriptFacts.

Context (urlopen : http_call → urlopen_outcome).

(** X10: [test_health] sends one GET to [base_url/health] with a
    timeout of 5 and passes exactly when the reply is a 2xx whose body
    parses to a JSON object with [status] equal to "healthy".  A reply
    that is no object, an HTTP error and an unreachable server all make
    it fail rather than crash. *)
Theorem test_health_passes_iff (base_url : string) (sent : list http_call) :
  (test_health urlopen base_url sent).2
  = sent ++ [HttpCall (base_url +:+ "/health") "GET" None [] 5]
  ∧ ((test_health urlopen base_url sent).1 = true ↔
     ∃ d : gmap string pyval,
       urlopen (HttpCall (base_url +:+ "/health") "GET" None [] 5)
       = UrlOpened (Ok (PDict d))
       ∧ d !! "status" = Some (PStr "healthy")).
Proof.
  unfold test_health. unfold_script. split; [done|].
  destruct (urlopen _) as [[data|e]|code payload| |]; simpl;
    try (split; [done | by intros (d & ? & ?)]).
  destruct data as [| | | | | |d]; simpl;
    try (split; [done | by intros (d & ? & ?)]).
  split.
  - intros Hst. exists d. split; [done|].
    destruct (d !! "status") as [[| | | |s| |]|]; simpl in Hst; try done.
    by apply bool_decide_eq_true_1 in Hst as ->.
  - intros (d' & [= <-] & ->). reflexivity.
Qed.

(** X11: [test_error_handling] posts a payload without [text] and
    passes exactly when the reply is an HTTP error with code 400 whose
    body parses to a JSON object having the key [error].  A 2xx reply,
    another error code, a body that is a list or a string (even one
    holding "error") and an unreachable server make it fail. *)
Theorem test_error_handling_passes_iff
  (base_url : string) (sent : list http_call) :
  (test_error_handling urlopen base_url sent).2
  = sent ++ [HttpCall (base_url +:+ "/extract") "POST"
               (Some (PDict {[ "language" := PStr "en" ]})) json_headers 5]
  ∧ ((test_error_handling urlopen base_url sent).1 = true ↔
     ∃ d : gmap string pyval,
       urlopen (HttpCall (base_url +:+ "/extract") "POST"
                  (Some (PDict {[ "language" := PStr "en" ]})) json_headers 5)
       = HTTPError 400 (Ok (PDict d))
       ∧ is_Some (d !! "error")).
Proof.
  unfold test_error_handling. unfold_script. split; [done|].
  destruct (urlopen _) as [payload|code [data|e]| |]; simpl;
    try (split; [done | by intros (d & ? & ?)]).
  - destruct (code =? 400) eqn:Hcode; simpl.
    + apply Z.eqb_eq in Hcode as ->.
      destruct data as [|b|z|f|s|l|d]; simpl;
        try (split; [done | by intros (d & ? & ?)]).
      * destruct (str_contains "error" s); simpl;
          (split; [done | by intros (d & ? & ?)]).
      * destruct (existsb (eq_str "error") l); simpl;
          (split; [done | by intros (d & ? & ?)]).
      * destruct (d !! "error") as [v|] eqn:Hd; simpl.
        -- split; [|done]. intros _. exists d. rewrite Hd. eauto.
        -- split; [done|]. intros (d' & [= <-] & [? ?]). congruence.
    + split; [done|]. intros (d & [= -> _] & _). done.
  - destruct (code =? 400) eqn:Hcode; simpl;
      (split; [done | by intros (d & ? & ?)]).
Qed.

End ScriptFacts.

(** ** The check script: reading keyword lists *)

Lemma keyword_line_ok (kw : pyval) :
  keyword_line kw = Ok () ↔ printable_keyword kw.
Proof.
  unfold keyword_line, printable_keyword, mbind, pyres_bind. split.
  - destruct kw as [| | | | | |e]; simpl; try done.
    destruct (e !! "text") as [t|] eqn:Ht; simpl; [|done].
    destruct (e !! "score") as [score|] eqn:Hsc; simpl; [|done].
    intros Hfmt. exists e, score. eauto.
  - intros (e & score & -> & [t Ht] & Hsc & Hfmt). simpl.
    by rewrite Ht, Hsc.
Qed.

Lemma py_for_ok {A : Type} (f : A → pyres unit) (l : list A) :
  py_for f l = Ok () ↔ Forall (λ x, f x = Ok ()) l.
Proof.
  induction l as [|x l IH]; simpl.
  - split; [by constructor | done].
  - unfold mbind, pyres_bind. rewrite Forall_cons, <- IH.
    destruct (f x) as [[]|e]; simpl; [tauto|].
    split; [done | by intros [? _]].
Qed.

Lemma comprehension_join_ok (items : list pyval) :
  (∃ texts, py_comprehension (λ kw, py_getitem kw "text") items = Ok texts
            ∧ forallb isinstance_str texts = true)
  ↔ Forall named_keyword items.
Proof.
  induction items as [|kw items IH]; simpl.
  - split; [by constructor | by exists []].
  - rewrite Forall_cons, <- IH. unfold mbind, pyres_bind, named_keyword.
    split.
    + intros (texts & Hc & Hall).
      destruct (py_getitem kw "text") as [t|] eqn:Hkw; [|done].
      destruct (py_comprehension _ items) as [ts|]; [|done].
      injection Hc as <-. simpl in Hall. apply andb_true_iff in Hall as [Ht Hts].
      split; [|by exists ts].
      destruct kw as [| | | | | |e]; simpl in Hkw; try done.
      destruct (e !! "text") as [v|] eqn:He; [|done]. injection Hkw as ->.
      destruct t; try done. eauto.
    + intros [(e & t & -> & He) (ts & Hc & Hts)]. simpl. rewrite He, Hc.
      exists (PStr t :: ts). done.
Qed.

Lemma str_items_rejected (f : pyval → pyres unit) (s : string) (k : nat) :
  (∀ t, f (PStr t) ≠ Ok ()) →
  s ≠ "" → py_for f (take (S k) (str_items s)) ≠ Ok ().
Proof.
  intros Hf Hs. destruct s as [|c s]; [done|]. simpl.
  unfold mbind, pyres_bind.
  destruct (f (PStr (String c ""))) as [[]|e] eqn:Hc; [|done].
  by destruct (Hf _ Hc).
Qed.

Section ScriptKeywordChecks.

Context (urlopen : http_call → urlopen_outcome).

Lemma test_extraction_spec (base_url : string) (sent : list http_call) :
  (test_extraction urlopen base_url sent).2 = sent ++ [extraction_call base_url]
  ∧ ((test_extraction urlopen base_url sent).1 = true ↔
     ∃ (d : gmap string pyval) (l : list pyval),
       urlopen (extraction_call base_url) = UrlOpened (Ok (PDict d))
       ∧ d !! "keywords" = Some (PList l)
       ∧ l ≠ []
       ∧ Forall printable_keyword (take 5 l)).
Proof.
  unfold test_extraction, extraction_call. unfold_script. split; [done|].
  destruct (urlopen _) as [[data|e]|code payload| |]; simpl;
    try (split; [done | by intros (? & ? & ? & ?)]).
  destruct data as [| | | | | |d]; simpl;
    try (split; [done | by intros (? & ? & ? & ?)]).
  destruct (d !! "keywords") as [kws|] eqn:Hk; simpl.
  2:{ split; [done|]. intros (d' & l' & [= <-] & ? & _). congruence. }
  destruct kws as [| | | |s|l|d0]; simpl;
    try (split; [done | intros (d' & l' & [= <-] & ? & _); congruence]).
  - destruct (decide (s = "")) as [->|Hs]; simpl.
    + split; [done | intros (d' & l' & [= <-] & ? & _); congruence].
    + rewrite bool_decide_eq_false_2 by done. simpl.
      destruct (py_for keyword_line (take 5 (str_items s))) as [[]|e] eqn:Hfor.
      * by destruct (str_items_rejected keyword_line s 4).
      * split; [done | intros (d' & l' & [= <-] & ? & _); congruence].
  - destruct l as [|kw l]; simpl.
    + split; [done | intros (d' & l' & [= <-] & ? & ? & _); congruence].
    + pose proof (py_for_ok keyword_line (take 5 (kw :: l))) as Hfor.
      simpl in Hfor.
      destruct (_ ≫= _) as [[]|e] eqn:Hrun; simpl.
      * split; [|done]. intros _. exists d, (kw :: l).
        split_and!; try done.
        eapply Forall_impl; [by apply Hfor|].
        intros x. apply keyword_line_ok.
      * split; [done|]. intros (d' & l' & [= <-] & Hl & _ & Hall).
        rewrite Hk in Hl. injection Hl as <-.
        assert (Raise e = Ok ()) as Habs; [|done].
        apply Hfor. eapply Forall_impl; [exact Hall|].
        intros x. apply keyword_line_ok.
  - destruct (bool_decide (d0 = ∅)); simpl;
      (split; [done | intros (d' & l' & [= <-] & ? & _); congruence]).
Qed.

Lemma multilanguage_case_spec (base_url : string) (case : string * string)
  (sent : list http_call) :
  (multilanguage_case urlopen base_url case sent).2
  = sent ++ [multilanguage_call base_url case]
  ∧ ((multilanguage_case urlopen base_url case sent).1 = true ↔
     ∃ (d : gmap string pyval) (l : list pyval),
       urlopen (multilanguage_call base_url case) = UrlOpened (Ok (PDict d))
       ∧ d !! "keywords" = Some (PList l)
       ∧ l ≠ []
       ∧ Forall named_keyword (take 3 l)).
Proof.
  destruct case as [lang text].
  unfold multilanguage_case, multilanguage_call. unfold_script.
  split; [done|].
  destruct (urlopen _) as [[data|e]|code payload| |]; simpl;
    try (split; [done | by intros (? & ? & ? & ?)]).
  destruct data as [| | | | | |d]; simpl;
    try (split; [done | by intros (? & ? & ? & ?)]).
  destruct (d !! "keywords") as [kws|] eqn:Hk; simpl.
  2:{ split; [done|]. intros (d' & l' & [= <-] & ? & _). congruence. }
  destruct kws as [| | | |s|l|d0]; simpl;
    try (split; [done | intros (d' & l' & [= <-] & ? & _); congruence]).
  - destruct s as [|c s]; simpl;
      (split; [done | intros (d' & l' & [= <-] & ? & _); congruence]).
  - destruct l as [|kw l]; simpl.
    + split; [done | intros (d' & l' & [= <-] & ? & ? & _); congruence].
    + pose proof (comprehension_join_ok (take 3 (kw :: l))) as Hjoin.
      simpl in Hjoin. unfold py_join.
      destruct (_ ≫= _) as [texts|e] eqn:Hrun; simpl.
      * destruct (forallb isinstance_str texts) eqn:Hall; simpl.
        -- split; [|done]. intros _. exists d, (kw :: l).
           split_and!; try done. apply Hjoin. eauto.
        -- split; [done|]. intros (d' & l' & [= <-] & Hl & _ & Hnamed).
           rewrite Hk in Hl. injection Hl as <-.
           apply Hjoin in Hnamed as (texts' & [= <-] & ?). congruence.
      * split; [done|]. intros (d' & l' & [= <-] & Hl & _ & Hnamed).
        rewrite Hk in Hl. injection Hl as <-.
        by apply Hjoin in Hnamed as (texts' & ? & ?).
  - destruct (bool_decide (d0 = ∅)); simpl;
      (split; [done | intros (d' & l' & [= <-] & ? & _); congruence]).
Qed.

End ScriptKeywordChecks.

(** ** The check script: the checks and their verdict *)

Section ScriptRun.

Context (urlopen : http_call → urlopen_outcome).

Lemma test_health_frame (base_url : string) (sent : list http_call) :
  test_health urlopen base_url sent
  = ((test_health urlopen base_url []).1, sent ++ [health_call base_url]).
Proof. reflexivity. Qed.

Lemma test_extraction_frame (base_url : string) (sent : list http_call) :
  test_extraction urlopen base_url sent
  = ((test_extraction urlopen base_url []).1, sent ++ [extraction_call base_url]).
Proof. reflexivity. Qed.

Lemma test_error_handling_frame (base_url : string) (sent : list http_call) :
  test_error_handling urlopen base_url sent
  = ((test_error_handling urlopen base_url []).1,
     sent ++ [error_handling_call base_url]).
Proof. reflexivity. Qed.

Lemma multilanguage_case_frame (base_url : string) (case : string * string)
  (sent : list http_call) :
  multilanguage_case urlopen base_url case sent
  = ((multilanguage_case urlopen base_url case []).1,
     sent ++ [multilanguage_call base_url case]).
Proof. destruct case. reflexivity. Qed.

Lemma multilanguage_loop_run (base_url : string) (cases : list (string * string))
  (passed : nat) (sent : list http_call) :
  multilanguage_loop urlopen base_url cases passed sent
  = ((passed + length (List.filter
                         (λ case, (multilanguage_case urlopen base_url case []).1)
                         cases))%nat,
     sent ++ (multilanguage_call base_url <$> cases)).
Proof.
  revert passed sent. induction cases as [|case cases IH]; intros passed sent.
  - simpl. unfold mret, Client_ret. by rewrite Nat.add_0_r, app_nil_r.
  - simpl. unfold mbind, Client_bind.
    rewrite multilanguage_case_frame, IH, <- app_assoc. simpl.
    destruct (multilanguage_case urlopen base_url case []).1; simpl;
      f_equal; lia.
Qed.

Lemma filter_all_length {A : Type} (f : A → bool) (l : list A) :
  length (List.filter f l) = length l ↔ Forall (λ x, f x = true) l.
Proof.
  induction l as [|x l IH]; simpl; [split; [by constructor | done]|].
  rewrite Forall_cons, <- IH.
  pose proof (List.filter_length_le f l) as Hle.
  destruct (f x); simpl; split; try lia; try tauto.
Qed.

Lemma test_multilanguage_run (base_url : string) (sent : list http_call) :
  (test_multilanguage urlopen base_url sent).2
  = sent ++ (multilanguage_call base_url <$> test_cases)
  ∧ ((test_multilanguage urlopen base_url sent).1 = true ↔
     Forall (λ case, (multilanguage_case urlopen base_url case []).1 = true)
       test_cases).
Proof.
  unfold test_multilanguage, mbind, Client_bind.
  rewrite multilanguage_loop_run. simpl fst. simpl snd. split; [done|].
  unfold mret, Client_ret. simpl fst.
  rewrite <- filter_all_length, Nat.eqb_eq. simpl. done.
Qed.

Lemma test_multilanguage_frame (base_url : string) (sent : list http_call) :
  test_multilanguage urlopen base_url sent
  = ((test_multilanguage urlopen base_url []).1,
     sent ++ (multilanguage_call base_url <$> test_cases)).
Proof.
  unfold test_multilanguage, mbind, Client_bind.
  by rewrite !multilanguage_loop_run.
Qed.

(** [main] in terms of the verdicts of its four checks. *)
Lemma main_run (url : string) (sent : list http_call) :
  main urlopen url sent
  = if (test_health urlopen url []).1 then
      (if (test_extraction urlopen url []).1
          && (test_error_handling urlopen url []).1
          && (test_multilanguage urlopen url []).1
       then 0 else 1,
       sent ++ [health_call url; extraction_call url; error_handling_call url]
            ++ (multilanguage_call url <$> test_cases))
    else (1, sent ++ [health_call url]).
Proof.
  unfold main, mbind, Client_bind.
  rewrite test_health_frame. cbv beta iota.
  destruct (test_health urlopen url []).1; [|done].
  rewrite test_extraction_frame. cbv beta iota.
  rewrite test_error_handling_frame. cbv beta iota.
  rewrite test_multilanguage_frame. cbv beta iota.
  unfold mret, Client_ret. rewrite <- !app_assoc.
  by destruct (test_extraction urlopen url []).1,
              (test_error_handling urlopen url []).1,
              (test_multilanguage urlopen url []).1.
Qed.

(** X12: [test_extraction] posts [test_text] with [language] "en" and
    [maxKeywords] 5, and passes exactly when the reply is a 2xx whose
    body is a JSON object with a non-empty list under [keywords] whose
    first five entries can be printed: each an object with a [text] and
    a [score] that [.4f] formats.  Entries after the fifth are not
    looked at; an HTTP error or a malformed entry makes the check fail,
    not crash. *)
Theorem test_extraction_passes_iff (base_url : string) (sent : list http_call) :
  (test_extraction urlopen base_url sent).2 = sent ++ [extraction_call base_url]
  ∧ ((test_extraction urlopen base_url sent).1 = true ↔
     ∃ (d : gmap string pyval) (l : list pyval),
       urlopen (extraction_call base_url) = UrlOpened (Ok (PDict d))
       ∧ d !! "keywords" = Some (PList l)
       ∧ l ≠ []
       ∧ Forall printable_keyword (take 5 l)).
Proof. apply test_extraction_spec. Qed.

(** X13: [test_multilanguage] always sends its three requests, for
    "en", "es" and "fr" in this order, also after a case failed, and
    passes exactly when every reply is a 2xx whose body is a JSON object
    with a non-empty list under [keywords] whose first three entries are
    objects with a string [text]. *)
Theorem test_multilanguage_passes_iff
  (base_url : string) (sent : list http_call) :
  (test_multilanguage urlopen base_url sent).2
  = sent ++ (multilanguage_call base_url <$> test_cases)
  ∧ ((test_multilanguage urlopen base_url sent).1 = true ↔
     ∀ case, case ∈ test_cases →
       ∃ (d : gmap string pyval) (l : list pyval),
         urlopen (multilanguage_call base_url case) = UrlOpened (Ok (PDict d))
         ∧ d !! "keywords" = Some (PList l)
         ∧ l ≠ []
         ∧ Forall named_keyword (take 3 l)).
Proof.
  destruct (test_multilanguage_run base_url sent) as [Hsent Hiff].
  split; [done|]. rewrite Hiff, Forall_forall.
  split; intros Hall case Hin;
    apply (multilanguage_case_spec urlopen base_url case []); auto.
Qed.

(** X14: [main] exits with status 0 or 1, and with 0 exactly when all
    four checks pass. *)
Theorem main_exit_status (url : string) (sent : list http_call) :
  ((main urlopen url sent).1 = 0 ∨ (main urlopen url sent).1 = 1)
  ∧ ((main urlopen url sent).1 = 0 ↔
     (test_health urlopen url []).1 = true
     ∧ (test_extraction urlopen url []).1 = true
     ∧ (test_error_handling urlopen url []).1 = true
     ∧ (test_multilanguage urlopen url []).1 = true).
Proof.
  rewrite main_run.
  destruct (test_health urlopen url []).1,
           (test_extraction urlopen url []).1,
           (test_error_handling urlopen url []).1,
           (test_multilanguage urlopen url []).1; simpl;
    (split; [auto | split; [done || tauto | done || by intros (? & ? & ? & ?)]]).
Qed.

(** X15: when the health check fails, [main] sends nothing but the one
    GET to [/health] and exits with 1.  When it passes, [main] sends six
    requests in a fixed order, whatever the outcome of each: the health
    GET, the extraction POST, the POST without [text], and the three
    language POSTs. *)
Theorem main_requests (url : string) (sent : list http_call) :
  ((test_health urlopen url []).1 = false →
   main urlopen url sent = (1, sent ++ [health_call url]))
  ∧ ((test_health urlopen url []).1 = true →
     (main urlopen url sent).2
     = sent ++ [health_call url; extraction_call url; error_handling_call url]
            ++ (multilanguage_call url <$> test_cases)).
Proof.
  rewrite main_run. split; intros ->; done.
Qed.

End ScriptRun.

(** ** The check script run against the application *)

Lemma append_cancel_l (b x y : string) : b +:+ x = b +:+ y → x = y.
Proof.
  induction b as [|c b IH]; simpl; [done|]. intros [= H]. by apply IH.
Qed.

Lemma keyword_entries_printable (kws : list (string * spec_float)) :
  Forall printable_keyword (keyword_entry <$> kws)
  ∧ Forall named_keyword (keyword_entry <$> kws).
Proof.
  split; apply Forall_fmap, Forall_forall; intros [kw score] _; simpl.
  - eexists _, (PFloat (py_float score)).
    split_and!; [reflexivity | by eexists | reflexivity | reflexivity].
  - eexists _, kw. split; reflexivity.
Qed.

Section Against.

Context (yake : yake_module) (base_url : string).

Lemma flask_app_health :
  flask_app yake base_url (health_call base_url)
  = UrlOpened (Ok (body healthy_response)).
Proof.
  unfold flask_app, health_call. simpl.
  by rewrite !bool_decide_eq_true_2.
Qed.

Lemma flask_app_extract (v : pyval) (headers : list (string * string))
  (timeout : Z) :
  flask_app yake base_url
    (HttpCall (base_url +:+ "/extract") "POST" (Some v) headers timeout)
  = match (extract_keywords yake (post_json v) []).1 with
    | Ok r => urllib_reply r
    | Raise _ => HTTPError 500 (Raise (ValueError "Expecting value"))
    end.
Proof.
  unfold flask_app. simpl.
  rewrite bool_decide_eq_false_2
    by (intros H; by apply append_cancel_l in H).
  by rewrite !bool_decide_eq_true_2.
Qed.

(** The reply to a request that sets [text], [language] and an integer
    [maxKeywords >= 0]. *)
Lemma flask_app_keywords (lang text : string) (k : Z)
  (headers : list (string * string)) (timeout : Z) :
  text ≠ "" → 0 ≤ k →
  flask_app yake base_url
    (HttpCall (base_url +:+ "/extract") "POST"
       (Some (PDict {[ "text" := PStr text;
                       "language" := PStr lang;
                       "maxKeywords" := PInt k ]}))
       headers timeout)
  = match capability yake (kwargs_for_language lang) (PStr text) with
    | Ok raw =>
        UrlOpened (Ok (body (success_response (take (Z.to_nat k) raw))))
    | Raise e => HTTPError 500 (Ok (body (error_response 500 (exn_str e))))
    end.
Proof.
  intros Htext Hk. rewrite flask_app_extract.
  rewrite (run_valid yake _ text) by done. simpl.
  change (resolved_kwargs _) with (kwargs_for_language lang).
  destruct (capability _ _ _) as [raw|e]; [|done].
  change (resolved_max_keywords _) with (PInt k). simpl.
  rewrite slice_to_int_nonneg by done.
  replace (take (Z.to_nat k `min` length raw) raw) with (take (Z.to_nat k) raw).
  - done.
  - destruct (Nat.le_ge_cases (Z.to_nat k) (length raw)).
    + by rewrite Nat.min_l.
    + rewrite Nat.min_r by done. by rewrite !take_ge.
Qed.

Lemma success_body_keywords (kws : list (string * spec_float))
  (d : gmap string pyval) (l : list pyval) :
  body (success_response kws) = PDict d →
  d !! "keywords" = Some (PList l) →
  l = keyword_entry <$> kws.
Proof.
  unfold success_response. simpl. intros Hd Hl.
  apply (f_equal (λ v, match v with
                       | PDict d => d !! "keywords"
                       | _ => None
                       end)) in Hd.
  rewrite lookup_insert_eq, Hl in Hd. by injection Hd.
Qed.

Lemma keywords_accepted (lang text : string) (k : nat)
  (headers : list (string * string)) (timeout : Z)
  (P : pyval → Prop) (n : nat) :
  text ≠ "" → (0 < k)%nat →
  (∀ kws, Forall P (keyword_entry <$> kws)) →
  (∃ (d : gmap string pyval) (l : list pyval),
     flask_app yake base_url
       (HttpCall (base_url +:+ "/extract") "POST"
          (Some (PDict {[ "text" := PStr text;
                          "language" := PStr lang;
                          "maxKeywords" := PInt (Z.of_nat k) ]}))
          headers timeout)
     = UrlOpened (Ok (PDict d))
     ∧ d !! "keywords" = Some (PList l)
     ∧ l ≠ []
     ∧ Forall P (take n l))
  ↔ extracts_something yake (lang, text).
Proof.
  intros Htext Hk HP. rewrite flask_app_keywords by (done || lia).
  unfold extracts_something. simpl. rewrite Nat2Z.id.
  destruct (capability _ _ _) as [raw|e]; split.
  - intros (d & l & [= Hd] & Hl & Hne & _). exists raw. split; [done|].
    intros ->. apply Hne.
    rewrite (success_body_keywords _ d l) by (done || by rewrite <- Hd).
    by rewrite take_nil.
  - intros (raw' & [= <-] & Hne).
    eexists _, (keyword_entry <$> take k raw). split_and!.
    + reflexivity.
    + by rewrite lookup_insert_eq.
    + destruct raw; [done|]. destruct k; [lia|]. done.
    + apply Forall_take, HP.
  - by intros (d & l & ? & _).
  - by intros (raw & ? & _).
Qed.

End Against.

Section AgainstChecks.

Context (yake : yake_module) (base_url : string).

Lemma app_health_check (sent : list http_call) :
  (test_health (flask_app yake base_url) base_url sent).1 = true.
Proof.
  unfold test_health. unfold_script.
  change (HttpCall (base_url +:+ "/health") "GET" None [] 5)
    with (health_call base_url).
  rewrite flask_app_health. reflexivity.
Qed.

Lemma app_error_check (sent : list http_call) :
  (test_error_handling (flask_app yake base_url) base_url sent).1 = true.
Proof.
  unfold test_error_handling. unfold_script.
  rewrite flask_app_extract, run_missing by reflexivity.
  reflexivity.
Qed.

Lemma app_extraction_check (sent : list http_call) :
  (test_extraction (flask_app yake base_url) base_url sent).1 = true
  ↔ extracts_something yake ("en", test_text).
Proof.
  destruct (test_extraction_spec (flask_app yake base_url) base_url sent)
    as [_ ->].
  apply (keywords_accepted yake base_url "en" test_text 5 json_headers 10
           printable_keyword 5); [discriminate | lia |].
  intros kws. apply keyword_entries_printable.
Qed.

Lemma app_multilanguage_case_check (case : string * string)
  (sent : list http_call) :
  case.2 ≠ "" →
  (multilanguage_case (flask_app yake base_url) base_url case sent).1 = true
  ↔ extracts_something yake case.
Proof.
  intros Htext.
  destruct (multilanguage_case_spec (flask_app yake base_url) base_url case sent)
    as [_ ->].
  destruct case as [lang text].
  apply (keywords_accepted yake base_url lang text 3 json_headers 10
           named_keyword 3); [done | lia |].
  intros kws. apply keyword_entries_printable.
Qed.

Lemma test_cases_nonempty :
  Forall (λ case : string * string, case.2 ≠ "") test_cases.
Proof. unfold test_cases. repeat constructor; discriminate. Qed.

Lemma app_multilanguage_check (sent : list http_call) :
  (test_multilanguage (flask_app yake base_url) base_url sent).1 = true
  ↔ Forall (extracts_something yake) test_cases.
Proof.
  destruct (test_multilanguage_run (flask_app yake base_url) base_url sent)
    as [_ ->].
  pose proof test_cases_nonempty as Hne.
  rewrite !Forall_forall in *.
  split; intros Hall case Hin;
    apply (app_multilanguage_case_check case []); auto.
Qed.

(** X16: against the application, the health check and the
    error-handling check of the script pass whatever the YAKE library
    does: [/health] answers "healthy", and a payload without [text] is
    answered with a 400 carrying an [error]. *)
Theorem health_and_error_checks_pass_against_the_application
  (sent : list http_call) :
  (test_health (flask_app yake base_url) base_url sent).1 = true
  ∧ (test_error_handling (flask_app yake base_url) base_url sent).1 = true.
Proof. split; [apply app_health_check | apply app_error_check]. Qed.

(** X17: against the application, [test_extraction] passes exactly when
    the library, given language "en" and the default parameters, returns
    at least one keyword for [test_text]; and [test_multilanguage]
    passes exactly when it returns at least one keyword for each of the
    three texts in its language.  An exception in the library or an
    empty answer fails the check. *)
Theorem keyword_checks_pass_iff_the_library_finds_keywords
  (sent : list http_call) :
  ((test_extraction (flask_app yake base_url) base_url sent).1 = true
   ↔ extracts_something yake ("en", test_text))
  ∧ ((test_multilanguage (flask_app yake base_url) base_url sent).1 = true
     ↔ ∀ case, case ∈ test_cases → extracts_something yake case).
Proof.
  split; [apply app_extraction_check|].
  rewrite app_multilanguage_check. apply Forall_forall.
Qed.

(** X18: run against the application, the script exits with 0 exactly
    when the library returns at least one keyword for [test_text] in
    "en" and for each of the three texts of [test_cases]; otherwise it
    exits with 1.  In both cases it sends its six requests. *)
Theorem script_passes_against_the_application_iff (sent : list http_call) :
  ((main (flask_app yake base_url) base_url sent).1 = 0
   ↔ extracts_something yake ("en", test_text)
     ∧ ∀ case, case ∈ test_cases → extracts_something yake case)
  ∧ ((main (flask_app yake base_url) base_url sent).1 = 0
     ∨ (main (flask_app yake base_url) base_url sent).1 = 1)
  ∧ (main (flask_app yake base_url) base_url sent).2
    = sent ++ [health_call base_url; extraction_call base_url;
               error_handling_call base_url]
           ++ (multilanguage_call base_url <$> test_cases).
Proof.
  rewrite main_run, app_health_check, app_error_check.
  rewrite <- app_extraction_check with (sent := []).
  rewrite <- Forall_forall, <- app_multilanguage_check with (sent := []).
  destruct (test_extraction _ _ []).1, (test_multilanguage _ _ []).1; simpl;
    split_and!; auto; split; try done; by intros [? ?].
Qed.

End AgainstChecks.

(** ** Running the script on examples *)

Example script_against_stub :
  main (flask_app stub_yake DEFAULT_URL) DEFAULT_URL []
  = (0, [ health_call DEFAULT_URL; extraction_call DEFAULT_URL;
          error_handling_call DEFAULT_URL ]
        ++ (multilanguage_call DEFAULT_URL <$> test_cases)).
Proof. vm_compute. reflexivity. Qed.

Example script_against_failing_library :
  (main (flask_app failing_yake DEFAULT_URL) DEFAULT_URL []).1 = 1.
Proof. vm_compute. reflexivity. Qed.

Example script_without_server :
  main (λ _, URLError) DEFAULT_URL [] = (1, [health_call DEFAULT_URL]).
Proof. vm_compute. reflexivity. Qed.

Example script_wrong_base_url :
  main (flask_app stub_yake DEFAULT_URL) "http://localhost:5555/api" []
  = (1, [health_call "http://localhost:5555/api"]).
Proof. vm_compute. reflexivity. Qed.

Example error_check_rejects_a_list_body :
  (test_error_handling
     (λ _, HTTPError 400 (Ok (PList [PStr "error"]))) DEFAULT_URL []).1
  = false.
Proof. vm_compute. reflexivity. Qed.

Example extraction_check_rejects_a_string_score :
  (test_extraction
     (λ _, UrlOpened
             (Ok (PDict {[ "keywords" :=
                             PList [PDict {[ "text" := PStr "alpha";
                                             "score" := PStr "0.05" ]}] ]})))
     DEFAULT_URL []).1
  = false.
Proof. vm_compute. reflexivity. Qed.
